(** * fault-search: normalisation of Terberg and Venti fault-code tables

    A shallow embedding of [build_fault_json.py] (the batch entry point) and
    of the normalisation half of [gui_fault_converter.py] (the desktop
    entry point), with the properties the specification states about them.

    Conventions of the embedding.
    - A Python [str] is a [string]; a character stands for the code point
      of the same number, so the strings covered are those of code points
      below 256 (Latin-1, the encoding of the Venti export).
    - [Optional[str]] is [option string]; Python's truthiness of such a
      value is [truthy].
    - A Python [dict] built by a literal and then updated is an association
      list in insertion order ([Dict.dict]).
    - A Python [set] of strings is a [gset string]; [sorted] is a merge
      sort for the code point order.
    - What [pandas] and the file system do is taken as given: a
      [DataFrame] is its column labels and its rows as [iterrows] yields
      them, and [read_csv] is a parameter of the batch loaders. *)

From Stdlib Require Import Ascii String ZArith.
From stdpp Require Import base strings list gmap sorting pretty.

Open Scope string_scope.
Open Scope list_scope.

(** ** Python strings *)

Module PyStr.

(** [str.isspace] on one character: the code points below 256 that
    CPython classifies as whitespace. *)
Definition is_space (c : ascii) : bool :=
  match c with
  | "009" | "010" | "011" | "012" | "013"
  | "028" | "029" | "030" | "031" | " "
  | "133" | "160" => true
  | _ => false
  end%char.

Fixpoint lstrip (s : string) : string :=
  match s with
  | String c s' => if is_space c then lstrip s' else s
  | EmptyString => EmptyString
  end.

Fixpoint rstrip (s : string) : string :=
  match s with
  | EmptyString => EmptyString
  | String c s' =>
      match rstrip s' with
      | EmptyString => if is_space c then EmptyString else String c EmptyString
      | r => String c r
      end
  end.

(** [s.strip()] *)
Definition strip (s : string) : string := rstrip (lstrip s).

Definition newline : string := String "010" EmptyString.

(** [sep.join(parts)] *)
Fixpoint join (sep : string) (parts : list string) : string :=
  match parts with
  | [] => ""
  | [p] => p
  | p :: ps => p +:+ sep +:+ join sep ps
  end.

(** Truthiness of an [Optional[str]]: [None] and the empty string are
    false. *)
Definition truthy (o : option string) : bool :=
  match o with
  | None | Some "" => false
  | Some _ => true
  end.

(** [a or b] on [Optional[str]] operands. *)
Definition py_or (a b : option string) : option string :=
  if truthy a then a else b.

(** A [{x}] field of an f-string. *)
Definition fmt (o : option string) : string :=
  match o with
  | Some s => s
  | None => "None"
  end.

(** [[t for t in candidates if t]] *)
Definition truthy_items (candidates : list (option string)) : list string :=
  omap (λ t, if truthy t then t else None) candidates.

(** [sorted(terms)] for a set of strings. *)
Definition sorted (terms : gset string) : list string :=
  merge_sort String.le (elements terms).

End PyStr.

(** ** Python floats

    [float(s)], [x.is_integer()], [int(x)] and [str(x)] on binary64
    values, written with exact integer arithmetic. *)

Module PyFloat.
Local Open Scope Z_scope.

(** [Fin neg m e] is [(-1)^neg * m * 2^e], with [0 <= m < 2^53] and
    [emin <= e <= emax], and [2^52 <= m] unless [e = emin]. *)
Inductive float :=
| Nan
| Inf (neg : bool)
| Fin (neg : bool) (m e : Z).

Definition emin : Z := -1074.
Definition emax : Z := 971.

(** [n / d] divided by [b ^ j], again as a fraction. *)
Definition scale (b n d j : Z) : Z * Z :=
  if 0 <=? j then (n, d * b ^ j) else (n * b ^ (- j), d).

(** The binary64 value nearest to [n / d] (ties to even), for
    [0 <= n] and [0 < d]. *)
Definition round_ratio (neg : bool) (n d : Z) : float :=
  if n =? 0 then Fin neg 0 emin else
  let e0 := Z.log2 n - Z.log2 d - 53 in
  let '(n0, d0) := scale 2 n d e0 in
  let e1 := if 2 ^ 53 <=? n0 / d0 then e0 + 1 else e0 in
  let e := Z.max emin e1 in
  let '(n1, d1) := scale 2 n d e in
  let q := n1 / d1 in
  let r := n1 mod d1 in
  let up := (d1 <? 2 * r) || ((d1 =? 2 * r) && Z.odd q) in
  let m := if up then q + 1 else q in
  let '(m, e) := if m =? 2 ^ 53 then (2 ^ 52, e + 1) else (m, e) in
  if emax <? e then Inf neg else Fin neg m e.

(** [D * 10 ^ j] as a binary64 value. *)
Definition of_decimal (neg : bool) (D j : Z) : float :=
  let '(n, d) := scale 10 D 1 (- j) in round_ratio neg n d.

(** *** Reading: [float(s)] *)

Definition digit (c : ascii) : option Z :=
  let n := Z.of_N (N_of_ascii c) in
  if (48 <=? n) && (n <=? 57) then Some (n - 48) else None.

Definition is_digit (c : ascii) : bool := bool_decide (is_Some (digit c)).

(** C's [isspace] in the "C" locale, CPython's [Py_ISSPACE]. *)
Definition c_isspace (c : ascii) : bool :=
  match c with
  | "009" | "010" | "011" | "012" | "013" | " " => true
  | _ => false
  end%char.

Fixpoint is_ascii (s : string) : bool :=
  match s with
  | EmptyString => true
  | String c r => (N_of_ascii c <? 128)%N && is_ascii r
  end.

(** [_PyUnicode_TransformDecimalAndSpaceToASCII] on a string that is not
    all ASCII: a non-ASCII space becomes a blank, and at any other
    non-ASCII character the string is cut and closed with a question
    mark (no code point below 256 outside ASCII is a decimal digit). *)
Fixpoint transform (s : string) : string :=
  match s with
  | EmptyString => EmptyString
  | String c r =>
      if (N_of_ascii c <? 127)%N then String c (transform r)
      else if PyStr.is_space c then String " " (transform r)
      else "?"
  end.

Definition to_ascii (s : string) : string :=
  if is_ascii s then s else transform s.

Fixpoint c_lstrip (s : string) : string :=
  match s with
  | String c r => if c_isspace c then c_lstrip r else s
  | EmptyString => EmptyString
  end.

(** Trailing blanks go, but never the first character. *)
Fixpoint c_rstrip (s : string) : string :=
  match s with
  | EmptyString => EmptyString
  | String c r =>
      match c_rstrip r with
      | EmptyString => if c_isspace c then EmptyString else String c EmptyString
      | r' => String c r'
      end
  end.

Definition c_strip (s : string) : option string :=
  match c_lstrip s with
  | EmptyString => None
  | String c r => Some (String c (c_rstrip r))
  end.

(** [_Py_string_to_number_with_underscores]: an underscore is legal only
    between two digits, and is dropped. [prev] is the character before. *)
Fixpoint drop_underscores (prev : ascii) (s : string) : option string :=
  match s with
  | EmptyString => if Ascii.eqb prev "_" then None else Some EmptyString
  | String c r =>
      if Ascii.eqb c "_" then
        if is_digit prev then drop_underscores c r else None
      else if Ascii.eqb prev "_" && negb (is_digit c) then None
      else String c <$> drop_underscores c r
  end.

Definition has_underscore (s : string) : bool :=
  bool_decide ("_"%char ∈ list_ascii_of_string s).

(** A run of digits at the head of [s]: its value as a number, how many
    there are, and what follows. *)
Fixpoint digits (acc : Z) (count : Z) (s : string) : Z * Z * string :=
  match s with
  | String c r =>
      match digit c with
      | Some v => digits (10 * acc + v) (count + 1) r
      | None => (acc, count, s)
      end
  | EmptyString => (acc, count, s)
  end.

Definition sign (s : string) : bool * string :=
  match s with
  | String "-" r => (true, r)
  | String "+" r => (false, r)
  | _ => (false, s)
  end.

(** The exponent part: when no digit follows the [e] and its sign, the
    exponent is not read and the rest starts at the [e]. *)
Definition exponent (s : string) : Z * string :=
  match s with
  | String c r =>
      if Ascii.eqb c "e" || Ascii.eqb c "E" then
        let '(neg, r1) := sign r in
        let '(v, k, r2) := digits 0 0 r1 in
        if k =? 0 then (0, s) else (if neg then - v else v, r2)
      else (0, s)
  | EmptyString => (0, s)
  end.

(** [_Py_dg_strtod]: the value read and the rest of the string, or [None]
    when the string does not start with a number. *)
Definition strtod (s : string) : option (float * string) :=
  let '(neg, r0) := sign s in
  let '(ip, ni, r1) := digits 0 0 r0 in
  let '(D, nf, r2) :=
    match r1 with
    | String "." r => let '(v, n, r') := digits ip 0 r in (v, n, r')
    | _ => (ip, 0, r1)
    end in
  if ni + nf =? 0 then None
  else
    let '(ex, r3) := exponent r2 in
    Some (of_decimal neg D (ex - nf), r3).

Definition lower (c : ascii) : ascii :=
  let n := N_of_ascii c in
  if (65 <=? n)%N && (n <=? 90)%N then ascii_of_N (n + 32) else c.

(** [case_insensitive_match]: the rest of [s] after the prefix [t]. *)
Fixpoint after_prefix (t s : string) : option string :=
  match t, s with
  | EmptyString, _ => Some s
  | String a t', String b s' =>
      if Ascii.eqb (lower b) a then after_prefix t' s' else None
  | String _ _, EmptyString => None
  end.

(** [_Py_parse_inf_or_nan] *)
Definition parse_inf_or_nan (s : string) : option (float * string) :=
  let '(neg, r) := sign s in
  match after_prefix "inf" r with
  | Some r1 =>
      match after_prefix "inity" r1 with
      | Some r2 => Some (Inf neg, r2)
      | None => Some (Inf neg, r1)
      end
  | None =>
      match after_prefix "nan" r with
      | Some r1 => Some (Nan, r1)
      | None => None
      end
  end.

(** [float(s)] for a [str]: [None] stands for [ValueError]. *)
Definition of_str (s : string) : option float :=
  s0 ← (let a := to_ascii s in
        if has_underscore a then drop_underscores "000" a else Some a);
  s1 ← c_strip s0;
  '(x, rest) ← (match strtod s1 with
                | Some p => Some p
                | None => parse_inf_or_nan s1
                end);
  if decide (rest = "") then Some x else None.

(** *** [float.is_integer] and [int(x)] *)

Definition is_integer (x : float) : bool :=
  match x with
  | Fin _ m e => (0 <=? e) || (m mod 2 ^ (- e) =? 0)
  | _ => false
  end.

(** [int(x)] of a finite value, truncating. *)
Definition to_int (x : float) : Z :=
  match x with
  | Fin neg m e =>
      let a := if 0 <=? e then m * 2 ^ e else m / 2 ^ (- e) in
      if neg then - a else a
  | _ => 0
  end.

(** *** Writing: [str(x)], the shortest digits that read back as [x] *)

(** Two finite values of the same sign are the same number. *)
Definition same_value (x y : float) : bool :=
  match x, y with
  | Fin s1 m1 e1, Fin s2 m2 e2 =>
      let e := Z.min e1 e2 in
      Bool.eqb s1 s2 && (m1 * 2 ^ (e1 - e) =? m2 * 2 ^ (e2 - e))
  | _, _ => false
  end.

Definition lt_pow10 (n d p : Z) : bool :=
  let '(n', d') := scale 10 n d p in n' <? d'.

Fixpoint find_decpt (fuel : nat) (n d p : Z) : Z :=
  match fuel with
  | O => p
  | S f => if lt_pow10 n d p then p else find_decpt f n d (p + 1)
  end.

(** The least [p] with [n / d < 10 ^ p]. *)
Definition decpt_of (n d : Z) : Z :=
  find_decpt 8 n d ((Z.log2 n - Z.log2 d - 1) * 30103 / 100000 - 1).

(** The decimal of [k] digits to print for the positive value [m * 2^e],
    when one of the two next to it reads back as that value. *)
Definition candidate (m e p k : Z) : option (Z * Z) :=
  let j := p - k in
  let '(n0, d0) := scale 2 m 1 (- e) in
  let '(n, d) := scale 10 n0 d0 j in
  let lo := n / d in
  let r := n mod d in
  let ok v := same_value (of_decimal false v j) (Fin false m e) in
  let nearer_hi := (d <? 2 * r) || ((d =? 2 * r) && Z.odd lo) in
  match ok lo, ok (lo + 1) with
  | true, true => Some (if nearer_hi then lo + 1 else lo, j)
  | true, false => Some (lo, j)
  | false, true => Some (lo + 1, j)
  | false, false => None
  end.

Fixpoint shortest (fuel : nat) (m e p k : Z) : Z * Z :=
  match fuel with
  | O => (0, 0)
  | S f =>
      match candidate m e p k with
      | Some c => c
      | None => shortest f m e p (k + 1)
      end
  end.

Fixpoint strip_zeros (fuel : nat) (D j : Z) : Z * Z :=
  match fuel with
  | O => (D, j)
  | S f => if (D mod 10 =? 0) && negb (D =? 0)
           then strip_zeros f (D / 10) (j + 1) else (D, j)
  end.

Definition zeros (n : Z) : string :=
  string_of_list_ascii (replicate (Z.to_nat n) "0"%char).

Definition take_s (n : Z) (s : string) : string :=
  string_of_list_ascii (take (Z.to_nat n) (list_ascii_of_string s)).
Definition drop_s (n : Z) (s : string) : string :=
  string_of_list_ascii (drop (Z.to_nat n) (list_ascii_of_string s)).

(** [format_float_short] for the code ['r']: [ds] are the digits, the
    value is [0.ds * 10 ^ decpt]. *)
Definition layout (ds : string) (decpt : Z) : string :=
  let len := Z.of_nat (String.length ds) in
  if (decpt <=? -4) || (16 <? decpt) then
    let ex := decpt - 1 in
    let mant := if len =? 1 then ds else take_s 1 ds +:+ "." +:+ drop_s 1 ds in
    let ax := pretty (Z.abs ex) in
    mant +:+ "e" +:+ (if ex <? 0 then "-" else "+")
         +:+ (if Z.abs ex <? 10 then "0" else "") +:+ ax
  else if decpt <=? 0 then "0." +:+ zeros (- decpt) +:+ ds
  else if len <=? decpt then ds +:+ zeros (decpt - len) +:+ ".0"
  else take_s decpt ds +:+ "." +:+ drop_s decpt ds.

(** [str(x)], which is [repr(x)] *)
Definition to_str (x : float) : string :=
  match x with
  | Nan => "nan"
  | Inf neg => if neg then "-inf" else "inf"
  | Fin neg m e =>
      (if neg then "-" else "") +:+
      (if m =? 0 then "0.0"
       else
         let '(n0, d0) := scale 2 m 1 (- e) in
         let p := decpt_of n0 d0 in
         let '(D0, j0) := shortest 17 m e p 1 in
         let '(D, j) := strip_zeros 17 D0 j0 in
         let ds := pretty D in
         layout ds (Z.of_nat (String.length ds) + j))
  end.

End PyFloat.

(** ** Tables as pandas hands them over *)

Module Pandas.

(** A cell of a row: what [read_csv] puts in a table (text, numbers,
    booleans, with NaN for a missing value), and Python's [None], which
    [row.get] returns for a label the row does not have. *)
Inductive cell :=
| PyNone
| CFloat (x : PyFloat.float)
| CInt (n : Z)
| CBool (b : bool)
| CStr (s : string).

(** [value is None] *)
Definition is_none (value : cell) : bool :=
  match value with
  | PyNone => true
  | _ => false
  end.

(** [pd.isna(value)] on a scalar *)
Definition isna (value : cell) : bool :=
  match value with
  | PyNone | CFloat PyFloat.Nan => true
  | _ => false
  end.

(** [str(value)] *)
Definition str (value : cell) : string :=
  match value with
  | PyNone => "None"
  | CFloat x => PyFloat.to_str x
  | CInt n => pretty n
  | CBool b => if b then "True" else "False"
  | CStr s => s
  end.

(** A row as [iterrows] yields it: the cells under their column labels. *)
Definition Series : Type := list (string * cell).

Record DataFrame := { columns : list string; values : list (list cell) }.

Definition iterrows (df : DataFrame) : list Series :=
  map (zip (columns df)) (values df).

(** [len(df)] *)
Definition len (df : DataFrame) : nat := length (values df).

(** [row.get(key)]: the cell under the label, [None] for a label the row
    does not have. *)
Fixpoint get (row : Series) (key : string) : cell :=
  match row with
  | [] => PyNone
  | (label, value) :: rest =>
      if decide (label = key) then value else get rest key
  end.

End Pandas.

(** ** Output records *)

Module Dict.

(** What a field of an output record holds: [None], a string, or the list
    of search terms. *)
Inductive value :=
| Null
| Str (s : string)
| Strs (l : list string).

Definition of_opt (o : option string) : value :=
  match o with
  | None => Null
  | Some s => Str s
  end.

(** A [dict] with string keys, in insertion order. *)
Definition dict : Type := list (string * value).

(** [d[key] = v] *)
Fixpoint setitem (key : string) (v : value) (d : dict) : dict :=
  match d with
  | [] => [(key, v)]
  | (k, w) :: rest =>
      if decide (k = key) then (k, v) :: rest else (k, w) :: setitem key v rest
  end.

(** [d.get(key)] *)
Fixpoint getitem (d : dict) (key : string) : option value :=
  match d with
  | [] => None
  | (k, w) :: rest => if decide (k = key) then Some w else getitem rest key
  end.

(** A dict display [{k1: v1, k2: v2, ...}] *)
Definition literal (items : list (string * value)) : dict :=
  foldl (λ d kv, setitem kv.1 kv.2 d) [] items.

Definition keys (d : dict) : list string := d.*1.

End Dict.

(** ** Exceptions *)

Inductive exn :=
| ValueError (msg : string)
| OtherError (msg : string).

Inductive result (A : Type) :=
| Ok (a : A)
| Raise (e : exn).
Arguments Ok {A} a.
Arguments Raise {A} e.

Definition result_bind {A B} (f : A → result B) (r : result A) : result B :=
  match r with
  | Ok a => f a
  | Raise e => Raise e
  end.

#[global] Instance result_mbind : MBind result := @result_bind.

(** [str(exc)] *)
Definition exn_str (e : exn) : string :=
  match e with
  | ValueError msg | OtherError msg => msg
  end.

(** ** build_fault_json.py *)

Module Cli.
Import PyStr Pandas Dict.

Definition clean (value : cell) : option string :=
  if is_none value then None
  else if isna value then None
  else
    let text := strip (str value) in
    py_or (Some text) None.

Definition normalize_alert_code (value : cell) : option string :=
  let raw := clean value in
  match raw with
  | None => None
  | Some r =>
      match PyFloat.of_str r with
      | Some num =>
          if PyFloat.is_integer num then Some (pretty (PyFloat.to_int num))
          else Some (PyFloat.to_str num)
      | None => raw
      end
  end.

Definition join_labeled (fields : list (string * option string)) : option string :=
  let parts :=
    omap (λ '(label, val),
            match val with
            | Some v =>
                if truthy val && truthy (Some (strip v))
                then Some (label +:+ ": " +:+ strip v) else None
            | None => None
            end) fields in
  match parts with
  | [] => None
  | _ => Some (join newline parts)
  end.

(** The body of the loop of [load_terberg]: the record of one row. *)
Definition terberg_record (row : Series) : dict :=
  let spn := clean (get row "SPN") in
  let fmi := clean (get row "FMI") in
  let foutcode := clean (get row "Foutcode") in
  let description := clean (get row "Omschrijving") in
  let code_display : option string := None in
  let code_display :=
    if truthy spn && truthy fmi then
      Some ("SPN " +:+ fmt spn +:+ " FMI " +:+ fmt fmi)
    else if truthy spn then Some ("SPN " +:+ fmt spn)
    else code_display in
  let record :=
    literal
      [ ("source", Str "terberg");
        ("alert_code", Null);
        ("spn", of_opt spn);
        ("fmi", of_opt fmi);
        ("code_display", of_opt (py_or code_display foutcode));
        ("title", of_opt (py_or foutcode code_display));
        ("description", of_opt description);
        ("severity", of_opt (clean (get row "Categorie")));
        ("category", of_opt (clean (get row "Foutcodelijst")));
        ("action", of_opt (clean (get row "Aangeraden actie")));
        ("cause", of_opt (clean (get row "Oorzaak")));
        ("effect", of_opt (clean (get row "Effect")));
        ("notes", Null);
        ("color", Null);
        ("stop_reason", Null);
        ("rationale", Null) ] in
  let search_terms : gset string :=
    list_to_set (truthy_items [code_display; foutcode; description]) in
  setitem "search_terms" (Strs (sorted search_terms)) record.

(** The body of the loop of [load_venti]. *)
Definition venti_record (row : Series) : dict :=
  let alert_code := normalize_alert_code (get row "Alert Fault code #") in
  let title := clean (get row "Alert message") in
  let description := clean (get row "Meaning") in
  let action :=
    join_labeled
      [ ("AVC Action", clean (get row "AVC Action"));
        ("Remote Operator Action", clean (get row " Remote Operator Action"));
        ("Vehicle immediate response", clean (get row "Vehicle immediate response"));
        ("Ops Troubleshoot Guide", clean (get row "Ops Troubleshoot Guide")) ] in
  let notes :=
    join_labeled
      [ ("Notes", clean (get row "Notes"));
        ("Internal Comments", clean (get row "Internal Comments")) ] in
  let cause := clean (get row "Associated Reasons") in
  let category := clean (get row "Categorization") in
  let record :=
    literal
      [ ("source", Str "venti");
        ("alert_code", of_opt alert_code);
        ("spn", Null);
        ("fmi", Null);
        ("code_display", of_opt alert_code);
        ("title", of_opt (py_or title alert_code));
        ("description", of_opt description);
        ("severity", of_opt (clean (get row "Severity")));
        ("category", of_opt category);
        ("action", of_opt action);
        ("cause", of_opt cause);
        ("effect", of_opt (clean (get row "Vehicle immediate response")));
        ("notes", of_opt notes);
        ("color", of_opt (clean (get row "Color")));
        ("stop_reason", of_opt (clean (get row "Stop Reason")));
        ("rationale", of_opt (clean (get row "Rationale"))) ] in
  let search_terms : gset string :=
    list_to_set (truthy_items [alert_code; title; description; cause; category]) in
  setitem "search_terms" (Strs (sorted search_terms)) record.

Section Loaders.

(** [pd.read_csv(path, encoding=...)]: the table in the file, or the
    exception raised on the way. *)
Variable read_csv : string → option string → result DataFrame.

Definition load_terberg (path : string) : result (list dict) :=
  df ← read_csv path None;
  Ok (foldl (λ records row, records ++ [terberg_record row]) [] (iterrows df)).

Definition load_venti (path : string) : result (list dict) :=
  df ← read_csv path (Some "latin1");
  Ok (foldl (λ records row, records ++ [venti_record row]) [] (iterrows df)).

Definition build_dataset (terberg_path venti_path : string) : result (list dict) :=
  let data : list dict := [] in
  t ← load_terberg terberg_path;
  let data := data ++ t in
  v ← load_venti venti_path;
  let data := data ++ v in
  Ok data.

End Loaders.

End Cli.

(** ** gui_fault_converter.py *)

Module Gui.
Import PyStr Pandas Dict.

Definition clean (value : cell) : option string :=
  if is_none value || isna value then None
  else
    let text := strip (str value) in
    py_or (Some text) None.

Definition normalize_alert_code (value : cell) : option string :=
  let raw := clean value in
  match raw with
  | None => None
  | Some r =>
      match PyFloat.of_str r with
      | Some num =>
          if PyFloat.is_integer num then Some (pretty (PyFloat.to_int num))
          else Some (PyFloat.to_str num)
      | None => raw
      end
  end.

Definition join_labeled (fields : list (string * option string)) : option string :=
  let parts :=
    omap (λ '(label, val),
            if truthy val then Some (label +:+ ": " +:+ fmt val) else None)
         fields in
  match parts with
  | [] => None
  | _ => Some (join newline parts)
  end.

Definition terberg_columns : gset string :=
  {[ "SPN"; "FMI"; "Foutcode"; "Omschrijving" ]}.

Definition is_terberg (df : DataFrame) : bool :=
  bool_decide (terberg_columns ⊆ list_to_set (columns df)).

Definition is_venti (df : DataFrame) : bool :=
  bool_decide ("Alert Fault code #" ∈ columns df).

(** The body of the loop of [normalize_terberg]. *)
Definition terberg_record (row : Series) : dict :=
  let spn := clean (get row "SPN") in
  let fmi := clean (get row "FMI") in
  let foutcode := clean (get row "Foutcode") in
  let description := clean (get row "Omschrijving") in
  let code_display :=
    if truthy spn && truthy fmi then
      Some ("SPN " +:+ fmt spn +:+ " FMI " +:+ fmt fmi)
    else (if truthy spn then Some ("SPN " +:+ fmt spn) else None) in
  let record :=
    literal
      [ ("source", Str "terberg");
        ("alert_code", Null);
        ("spn", of_opt spn);
        ("fmi", of_opt fmi);
        ("code_display", of_opt (py_or code_display foutcode));
        ("title", of_opt (py_or foutcode code_display));
        ("description", of_opt description);
        ("severity", of_opt (clean (get row "Categorie")));
        ("category", of_opt (clean (get row "Foutcodelijst")));
        ("action", of_opt (clean (get row "Aangeraden actie")));
        ("cause", of_opt (clean (get row "Oorzaak")));
        ("effect", of_opt (clean (get row "Effect")));
        ("notes", Null);
        ("color", Null);
        ("stop_reason", Null);
        ("rationale", Null) ] in
  let search_terms : gset string :=
    list_to_set (truthy_items [code_display; foutcode; description]) in
  setitem "search_terms" (Strs (sorted search_terms)) record.

Definition normalize_terberg (df : DataFrame) : list dict :=
  foldl (λ records row, records ++ [terberg_record row]) [] (iterrows df).

(** The body of the loop of [normalize_venti]. *)
Definition venti_record (row : Series) : dict :=
  let alert_code := normalize_alert_code (get row "Alert Fault code #") in
  let title := clean (get row "Alert message") in
  let description := clean (get row "Meaning") in
  let action :=
    join_labeled
      [ ("AVC Action", clean (get row "AVC Action"));
        ("Remote Operator Action", clean (get row " Remote Operator Action"));
        ("Vehicle immediate response", clean (get row "Vehicle immediate response"));
        ("Ops Troubleshoot Guide", clean (get row "Ops Troubleshoot Guide")) ] in
  let notes :=
    join_labeled
      [ ("Notes", clean (get row "Notes"));
        ("Internal Comments", clean (get row "Internal Comments")) ] in
  let cause := clean (get row "Associated Reasons") in
  let category := clean (get row "Categorization") in
  let record :=
    literal
      [ ("source", Str "venti");
        ("alert_code", of_opt alert_code);
        ("spn", Null);
        ("fmi", Null);
        ("code_display", of_opt alert_code);
        ("title", of_opt (py_or title alert_code));
        ("description", of_opt description);
        ("severity", of_opt (clean (get row "Severity")));
        ("category", of_opt category);
        ("action", of_opt action);
        ("cause", of_opt cause);
        ("effect", of_opt (clean (get row "Vehicle immediate response")));
        ("notes", of_opt notes);
        ("color", of_opt (clean (get row "Color")));
        ("stop_reason", of_opt (clean (get row "Stop Reason")));
        ("rationale", of_opt (clean (get row "Rationale"))) ] in
  let search_terms : gset string :=
    list_to_set (truthy_items [alert_code; title; description; cause; category]) in
  setitem "search_terms" (Strs (sorted search_terms)) record.

Definition normalize_venti (df : DataFrame) : list dict :=
  foldl (λ records row, records ++ [venti_record row]) [] (iterrows df).

Definition not_recognized : string :=
  "CSV type not recognized (expected Terberg or Venti columns).".

Definition normalize_dataframe (df : DataFrame) : result (list dict) :=
  if is_terberg df then Ok (normalize_terberg df)
  else if is_venti df then Ok (normalize_venti df)
  else Raise (ValueError not_recognized).

(** *** The convert action of the window *)

(** The two attributes of [App] that [convert] reads. *)
Record App := { df : option DataFrame; current_path : option string }.

(** What [convert] does to the outside: a dialog, or the call that writes
    the output file. *)
Inductive event :=
| ShowError (title message : string)
| ShowInfo (title message : string)
| WriteText (path : string) (data : list dict).

Section Convert.

(** [path.with_suffix(suffix)], [path.name], and
    [path.write_text(json.dumps(data, ...))], which may raise. *)
Variable with_suffix : string → string → string.
Variable name : string → string.
Variable write_text : string → list dict → result unit.

Definition convert (self : App) : list event :=
  match df self, current_path self with
  | Some table, Some path =>
      match normalize_dataframe table with
      | Raise exc => [ShowError "Error" ("Conversion failed: " +:+ exn_str exc)]
      | Ok data =>
          let output_path := with_suffix path ".json" in
          match write_text output_path data with
          | Raise exc =>
              [WriteText output_path data;
               ShowError "Error" ("Failed to write JSON: " +:+ exn_str exc)]
          | Ok _ =>
              [WriteText output_path data;
               ShowInfo "Success"
                 ("Wrote " +:+ pretty (length data) +:+ " records to "
                  +:+ name output_path)]
          end
      end
  | _, _ => []
  end.

End Convert.

End Gui.

(** ** The operations as the specification words them *)

Module Spec.
Import PyStr Pandas Dict.

(** [clean]: null for a missing value or when nothing is left after
    trimming, else the trimmed string form. *)
Definition clean (value : cell) : option string :=
  if isna value then None
  else if decide (strip (str value) = "") then None
  else Some (strip (str value)).

(** The finite value [x] is the integer [z]: with [x = ±m * 2^e],
    [z * 2^(-e) = ±m] when [e] is negative and [z = ±m * 2^e] otherwise. *)
Definition is_value (x : PyFloat.float) (z : Z) : Prop :=
  match x with
  | PyFloat.Fin neg m e =>
      (z * 2 ^ Z.max 0 (- e) = (if neg then - m else m) * 2 ^ Z.max 0 e)%Z
  | _ => False
  end.

(** A pair survives unless its value is null or empty after trimming. *)
Definition survives (field : string * option string) : bool :=
  match field.2 with
  | None => false
  | Some v => negb (String.eqb (strip v) "")
  end.

(** The line of a pair, [{label}: {value}]. *)
Definition line (field : string * option string) : string :=
  field.1 +:+ ": " +:+ default "" field.2.

(** The lines [render] of the pairs that [keep] retains, in order, one
    per line; null when none is retained. *)
Definition join_with (keep : string * option string → bool)
    (render : string * option string → string)
    (fields : list (string * option string)) : option string :=
  match List.filter keep fields with
  | [] => None
  | kept => Some (join newline (map render kept))
  end.

(** [join_labeled]: the lines of the surviving pairs, in order, one per
    line; null when none survives. *)
Definition join_labeled (fields : list (string * option string)) : option string :=
  join_with survives line fields.

(** The two readings the code has of it. A pair is present when its value
    is neither null nor the empty string; its trimmed line has the value
    without leading and trailing whitespace. *)
Definition present (field : string * option string) : bool := truthy field.2.
Definition trimmed_line (field : string * option string) : string :=
  field.1 +:+ ": " +:+ strip (default "" field.2).

(** A value as [clean] returns it: null, or a string that is not empty and
    has no whitespace to trim. *)
Definition cleaned (o : option string) : Prop :=
  match o with
  | None => True
  | Some s => s ≠ "" ∧ strip s = s
  end.

(** The search terms of a list of candidates: nulls and empty strings
    dropped, duplicates removed, ascending. *)
Definition search_terms (candidates : list (option string)) : list string :=
  merge_sort String.le (remove_dups (truthy_items candidates)).

(** The fields of the normalized record, in the order of the table of
    section 3. *)
Definition field_names : list string :=
  [ "source"; "alert_code"; "spn"; "fmi"; "code_display"; "title";
    "description"; "severity"; "category"; "action"; "cause"; "effect";
    "notes"; "color"; "stop_reason"; "rationale"; "search_terms" ].

(** The fields a schema does not supply. *)
Definition terberg_absent : list string :=
  [ "alert_code"; "notes"; "color"; "stop_reason"; "rationale" ].
Definition venti_absent : list string := [ "spn"; "fmi" ].

(** A record has every field of the table, in its order, and holds an
    explicit null in each field of [absent]. *)
Definition complete (absent : list string) (record : dict) : Prop :=
  keys record = field_names ∧
  Forall (λ k, is_Some (getitem record k)) field_names ∧
  Forall (λ k, getitem record k = Some Null) absent.

(** The string a record holds in a field, if it holds one. *)
Definition field (record : dict) (key : string) : option string :=
  match getitem record key with
  | Some (Str s) => Some s
  | _ => None
  end.

(** The source of a record. *)
Definition source (record : dict) : option string := field record "source".

(** Schema detection as section 4.1 words it, on the column labels. *)
Inductive schema := Terberg | Venti.

Definition terberg_labels : list string :=
  [ "SPN"; "FMI"; "Foutcode"; "Omschrijving" ].

Definition detect (labels : list string) : option schema :=
  if decide (Forall (λ c, c ∈ labels) terberg_labels) then Some Terberg
  else if decide ("Alert Fault code #" ∈ labels) then Some Venti
  else None.

(** Only whitespace. *)
Fixpoint blank (s : string) : bool :=
  match s with
  | EmptyString => true
  | String c r => is_space c && blank r
  end.

(** Neither the first nor the last character is whitespace. *)
Definition trimmed (s : string) : Prop :=
  ∀ c, (∃ r, s = String c r) ∨ (∃ r, s = r +:+ String c "") →
       is_space c = false.

(** Strictly ascending for the code point order. *)
Definition lt (s1 s2 : string) : Prop := String.le s1 s2 ∧ s1 ≠ s2.

End Spec.

(** ** Sample tables *)

Module Examples.
Import Pandas.

Definition nan : cell := CFloat PyFloat.Nan.

(** One row of the scenario of the specification, and one row whose
    cells are all missing. *)
Definition terberg_table : DataFrame :=
  {| columns := [ "SPN"; "FMI"; "Foutcode"; "Omschrijving"; "Categorie" ];
     values :=
       [ [ CInt 110; CInt 2; CStr "E110"; CStr "Engine overheat"; CStr "Critical" ];
         [ nan; nan; nan; nan; nan ] ] |}.

(** The alert code is the number 12.0, as a spreadsheet exports it. *)
Definition venti_table : DataFrame :=
  {| columns := [ "Alert Fault code #"; "Alert message"; "AVC Action"; "Notes" ];
     values :=
       [ [ CFloat (PyFloat.of_decimal false 12 0); CStr "Brake fault";
           CStr "Stop vehicle"; CStr "Check sensor" ] ] |}.

(** A table with the columns of both schemas. *)
Definition mixed_table : DataFrame :=
  {| columns := [ "SPN"; "FMI"; "Foutcode"; "Omschrijving"; "Alert Fault code #" ];
     values := [ [ CInt 100; CInt 4; CStr "E100"; CStr "Oil pressure"; CStr "7" ] ] |}.

(** A table of neither schema. *)
Definition other_table : DataFrame :=
  {| columns := [ "SPN"; "FMI"; "Foutcode" ];
     values := [ [ CInt 1; CInt 2; CStr "E1" ] ] |}.

(** A file system with the two sample files. *)
Definition read_csv (path : string) (encoding : option string) : result DataFrame :=
  if decide (path = "terberg.csv") then Ok terberg_table
  else if decide (path = "venti.csv") then Ok venti_table
  else Raise (OtherError "No such file or directory").

End Examples.

(** ** The labels the normalizers read *)

Module Reads.

(** The labels [load_terberg] and [normalize_terberg] pass to [row.get]. *)
Definition terberg_inputs : list string :=
  [ "SPN"; "FMI"; "Foutcode"; "Omschrijving"; "Categorie"; "Foutcodelijst";
    "Aangeraden actie"; "Oorzaak"; "Effect" ].

(** The labels [load_venti] and [normalize_venti] pass to [row.get]; the
    one of the remote operator action starts with a blank. *)
Definition venti_inputs : list string :=
  [ "Alert Fault code #"; "Alert message"; "Meaning"; "AVC Action";
    " Remote Operator Action"; "Vehicle immediate response";
    "Ops Troubleshoot Guide"; "Notes"; "Internal Comments"; "Severity";
    "Categorization"; "Associated Reasons"; "Color"; "Stop Reason";
    "Rationale" ].

(** A cleaned value handed on as a cell. *)
Definition as_cell (o : option string) : Pandas.cell :=
  match o with
  | None => Pandas.PyNone
  | Some s => Pandas.CStr s
  end.

(** A pair with its value trimmed. *)
Definition trim_value (f : string * option string) : string * option string :=
  (f.1, PyStr.strip <$> f.2).

(** A character that [strip] keeps and that [float] neither turns into a
    blank nor drops: ASCII, no whitespace, no underscore. *)
Definition harmless (c : ascii) : bool :=
  negb (PyStr.is_space c) && negb (PyFloat.c_isspace c)
  && negb (Ascii.eqb c "_") && (N_of_ascii c <? 128)%N.

(** A field of a record holds no empty string: it is null, a string that
    is not empty, or a list of such strings. *)
Definition no_empty (v : Dict.value) : Prop :=
  match v with
  | Dict.Null => True
  | Dict.Str s => s ≠ ""
  | Dict.Strs l => "" ∉ l
  end.

(** The search terms of a record. *)
Definition terms (record : Dict.dict) : list string :=
  match Dict.getitem record "search_terms" with
  | Some (Dict.Strs l) => l
  | _ => []
  end.

End Reads.

(** ** [json.dumps(data, indent=2, ensure_ascii=True)] *)

Module Json.
Import Dict.

Definition quote : ascii := "034"%char.
Definition backslash : ascii := "092"%char.

Definition hex_digit (n : N) : ascii :=
  if (n <? 10)%N then ascii_of_N (48 + n) else ascii_of_N (87 + n).

(** The escape of one character: a backslash form for the quote, the
    backslash and five control characters, four hexadecimal digits after
    [\u] for any other character outside the range from the blank to the
    tilde, and the character itself inside it. *)
Definition escape (c : ascii) : string :=
  let two (d : ascii) := String backslash (String d "") in
  let n := N_of_ascii c in
  if Ascii.eqb c quote then two quote
  else if Ascii.eqb c backslash then two backslash
  else if (n =? 8)%N then two "b"%char
  else if (n =? 12)%N then two "f"%char
  else if (n =? 10)%N then two "n"%char
  else if (n =? 13)%N then two "r"%char
  else if (n =? 9)%N then two "t"%char
  else if (32 <=? n)%N && (n <=? 126)%N then String c ""
  else two "u"%char +:+ "00" +:+ String (hex_digit (n / 16)) (String (hex_digit (n mod 16)) "").

Fixpoint escape_all (s : string) : string :=
  match s with
  | EmptyString => EmptyString
  | String c r => escape c +:+ escape_all r
  end.

(** [py_encode_basestring_ascii] *)
Definition encode_str (s : string) : string :=
  String quote (escape_all s +:+ String quote "").

(** A line feed and the indentation of a nesting level. *)
Definition newline_indent (level : nat) : string :=
  PyStr.newline +:+ string_of_list_ascii (replicate (2 * level) " "%char).

(** A list or dict display: the items one per line at the next level,
    separated by commas, between the two brackets; the brackets alone
    when there is no item. *)
Definition block (opening closing : string) (level : nat) (items : list string) : string :=
  match items with
  | [] => opening +:+ closing
  | _ =>
      opening +:+ newline_indent (S level)
      +:+ PyStr.join ("," +:+ newline_indent (S level)) items
      +:+ newline_indent level +:+ closing
  end.

Definition dumps_value (level : nat) (v : value) : string :=
  match v with
  | Null => "null"
  | Str s => encode_str s
  | Strs l => block "[" "]" level (map encode_str l)
  end.

Definition dumps_record (level : nat) (d : dict) : string :=
  block "{" "}" level
    (map (λ kv, encode_str kv.1 +:+ ": " +:+ dumps_value (S level) kv.2) d).

Definition dumps (data : list dict) : string :=
  block "[" "]" 0 (map (dumps_record 1) data).

(** Printable ASCII, or the line feed. *)
Definition plain (c : ascii) : bool :=
  let n := N_of_ascii c in
  ((32 <=? n)%N && (n <=? 126)%N) || (n =? 10)%N.

End Json.

(** ** [main] of build_fault_json.py *)

Module Batch.

(** The parsed arguments. *)
Record args := { terberg : string; venti : string; output : string }.

(** The defaults of the three options. *)
Definition defaults : args :=
  {| terberg := "fault codes/fault_code_terberg.csv";
     venti := "fault codes/fault_code_venti.csv";
     output := "fault_codes.json" |}.

Inductive effect :=
| WriteText (path text : string)
| Print (line : string).

Section Main.

(** The file system: reading a table, writing a text, and the string of
    a path. *)
Variable read_csv : string → option string → result Pandas.DataFrame.
Variable write_text : string → string → result unit.
Variable path_str : string → string.

(** [main] after [parse_args]: what it does to the outside, and the
    exception it ends with, if any. *)
Definition main (a : args) : list effect * option exn :=
  match Cli.build_dataset read_csv (terberg a) (venti a) with
  | Raise e => ([], Some e)
  | Ok dataset =>
      let text := Json.dumps dataset in
      match write_text (output a) text with
      | Raise e => ([WriteText (output a) text], Some e)
      | Ok _ =>
          ([WriteText (output a) text;
            Print ("Wrote " +:+ pretty (length dataset) +:+ " records to "
                   +:+ path_str (output a))],
           None)
      end
  end.

End Main.

End Batch.

(** ** The window of gui_fault_converter.py *)

Module Window.
Import Pandas.

(** What the window holds: the two attributes of [App], the text of the
    info label, whether the convert button is enabled, the columns and
    the rows of the table view, and the text of the summary box. *)
Record state := {
  app : Gui.App;
  info_label : string;
  convert_enabled : bool;
  tree_columns : list string;
  tree_items : list (list cell);
  summary : string
}.

(** [App.__init__] *)
Definition init : state :=
  {| app := {| Gui.df := None; Gui.current_path := None |};
     info_label := "No file loaded";
     convert_enabled := false;
     tree_columns := [];
     tree_items := [];
     summary := "Load a CSV to preview first 200 rows and see a summary." |}.

(** [df.head(n)] *)
Definition head (n : nat) (df : DataFrame) : DataFrame :=
  {| columns := columns df; values := take n (values df) |}.

(** [populate_table]: the old rows go, the columns are those of the
    table, and each of the first 200 rows is inserted with the cells that
    [row.get] finds under the column labels. *)
Definition populate_table (df : DataFrame) (self : state) : state :=
  {| app := app self;
     info_label := info_label self;
     convert_enabled := convert_enabled self;
     tree_columns := columns df;
     tree_items :=
       foldl (λ items row, items ++ [map (get row) (columns df)]) []
             (iterrows (head 200 df));
     summary := summary self |}.

(** What [pd.read_csv] does for [load_file]: a table, a
    [UnicodeDecodeError], or another exception. *)
Inductive outcome :=
| Loaded (df : DataFrame)
| DecodeError (msg : string)
| Failed (msg : string).

Section LoadFile.

(** The path the file dialog returns (empty when it is cancelled), the
    file system, [path.name], and the text [populate_summary] writes. *)
Variable askopenfilename : string.
Variable read_csv : string → option string → outcome.
Variable name : string → string.
Variable summary_text : DataFrame → string.

Definition populate_summary (df : DataFrame) (self : state) : state :=
  {| app := app self;
     info_label := info_label self;
     convert_enabled := convert_enabled self;
     tree_columns := tree_columns self;
     tree_items := tree_items self;
     summary := summary_text df |}.

Definition load_file (self : state) : state * list Gui.event :=
  let path_str := askopenfilename in
  if decide (path_str = "") then (self, [])
  else
    let path := path_str in
    let read :=
      match read_csv path None with
      | DecodeError _ => read_csv path (Some "latin1")
      | r => r
      end in
    match read with
    | Loaded df =>
        let self :=
          {| app := {| Gui.df := Some df; Gui.current_path := Some path |};
             info_label :=
               "Loaded: " +:+ name path +:+ " | rows: " +:+ pretty (len df)
               +:+ " | cols: " +:+ pretty (length (columns df));
             convert_enabled := true;
             tree_columns := tree_columns self;
             tree_items := tree_items self;
             summary := summary self |} in
        (populate_summary df (populate_table df self), [])
    | DecodeError msg | Failed msg =>
        (self, [Gui.ShowError "Error" ("Failed to read CSV: " +:+ msg)])
    end.

End LoadFile.

(** The states the window can be in: the initial one, and the one after
    [load_file] in a state it can be in, whatever the dialog and the file
    system answer. [convert] changes nothing of the state. *)
Inductive reachable : state → Prop :=
| reach_init : reachable init
| reach_load self chosen read_csv name summary_text :
    reachable self →
    reachable (load_file chosen read_csv name summary_text self).1.

(** A table as [read_csv] builds it: distinct labels, and as many cells in
    each row as there are labels. *)
Definition well_formed (df : DataFrame) : Prop :=
  NoDup (columns df) ∧
  Forall (λ row, length row = length (columns df)) (values df).

End Window.

(** * Properties *)

(** ** Trimming *)

Section strip_facts.
Import PyStr.

Lemma lstrip_head s :
  lstrip s = "" ∨ ∃ c r, lstrip s = String c r ∧ is_space c = false.
Proof.
  induction s as [|c s IH]; simpl; [by left|].
  destruct (is_space c) eqn:Hc; [done|]. right. by exists c, s.
Qed.

Lemma rstrip_head c r :
  is_space c = false → ∃ r', rstrip (String c r) = String c r'.
Proof.
  intros Hc. simpl. destruct (rstrip r); [rewrite Hc|]; eauto.
Qed.

Lemma rstrip_idemp s : rstrip (rstrip s) = rstrip s.
Proof.
  induction s as [|c s IH]; [done|]. simpl.
  destruct (rstrip s) as [|a t] eqn:Hs.
  - destruct (is_space c) eqn:Hc; simpl; by rewrite ?Hc.
  - change (rstrip (String c (String a t)))
      with (match rstrip (String a t) with
            | "" => if is_space c then "" else String c ""
            | r => String c r
            end).
    by rewrite IH.
Qed.

Lemma lstrip_strip s : lstrip (strip s) = strip s.
Proof.
  unfold strip. destruct (lstrip_head s) as [->|(c & r & -> & Hc)]; [done|].
  destruct (rstrip_head c r Hc) as [r' ->]. simpl. by rewrite Hc.
Qed.

Lemma strip_idemp s : strip (strip s) = strip s.
Proof.
  unfold strip at 1. rewrite lstrip_strip. unfold strip. apply rstrip_idemp.
Qed.

Lemma truthy_Some s : truthy (Some s) = true ↔ s ≠ "".
Proof. destruct s; simpl; split; congruence. Qed.

Lemma truthy_Some_false s : truthy (Some s) = false ↔ s = "".
Proof. destruct s; simpl; split; congruence. Qed.

End strip_facts.

Section strip_shape.
Import PyStr.

Lemma append_nil_inv (t : string) c : t +:+ String c "" ≠ "".
Proof. by destruct t. Qed.

Lemma lstrip_decompose s : ∃ l, Spec.blank l = true ∧ s = l +:+ lstrip s.
Proof.
  induction s as [|c s (l & Hl & Hs)]; simpl; [by exists ""|].
  destruct (is_space c) eqn:Hc; [|by exists ""].
  exists (String c l). split; [by simpl; rewrite Hc, Hl|].
  change (String c s = String c (l +:+ lstrip s)). by rewrite <- Hs.
Qed.

Lemma rstrip_decompose s : ∃ r, Spec.blank r = true ∧ s = rstrip s +:+ r.
Proof.
  induction s as [|c s (r & Hr & Hs)]; simpl; [by exists ""|].
  destruct (rstrip s) as [|a t] eqn:Ht.
  - destruct (is_space c) eqn:Hc.
    + exists (String c r). split; [by simpl; rewrite Hc, Hr|]. by rewrite Hs at 1.
    + exists r. split; [done|]. by rewrite Hs at 1.
  - exists r. split; [done|]. by rewrite Hs at 1.
Qed.

Lemma append_cons a (t u : string) : String a t +:+ u = String a (t +:+ u).
Proof. done. Qed.

Lemma rstrip_last s : ∀ t c, rstrip s = t +:+ String c "" → is_space c = false.
Proof.
  induction s as [|a s IH]; intros t c; simpl.
  - intros H. symmetry in H. by apply append_nil_inv in H.
  - destruct (rstrip s) as [|b u] eqn:Hs.
    + destruct (is_space a) eqn:Ha.
      * intros H. symmetry in H. by apply append_nil_inv in H.
      * destruct t as [|a' t]; [intros [= ->]; done|].
        rewrite append_cons. intros [= -> H].
        symmetry in H. by apply append_nil_inv in H.
    + destruct t as [|a' t]; [intros [= -> ?]; done|].
      rewrite append_cons. intros [= -> H]. by apply (IH t).
Qed.

Lemma strip_trimmed s : Spec.trimmed (strip s).
Proof.
  intros c [[r Hr]|[r Hr]]; [|by apply (rstrip_last (lstrip s) r)].
  unfold strip in Hr.
  destruct (lstrip_head s) as [H|(c' & r' & H & Hc)]; rewrite H in Hr; [done|].
  destruct (rstrip_head c' r' Hc) as [r'' E]. rewrite E in Hr. congruence.
Qed.

Lemma strip_decompose s :
  ∃ l r, Spec.blank l = true ∧ Spec.blank r = true ∧ s = l +:+ strip s +:+ r.
Proof.
  destruct (lstrip_decompose s) as (l & Hl & Hs).
  destruct (rstrip_decompose (lstrip s)) as (r & Hr & Hs').
  exists l, r. split; [done|]. split; [done|].
  unfold strip. by rewrite <- Hs'.
Qed.

End strip_shape.

(** ** [clean] *)

Section clean_facts.
Import PyStr Pandas.

Lemma or_none_spec text :
  py_or (Some text) None = if decide (text = "") then None else Some text.
Proof. unfold py_or. destruct text; by repeat case_decide. Qed.

Lemma Cli_clean_spec value : Cli.clean value = Spec.clean value.
Proof.
  unfold Cli.clean, Spec.clean. rewrite or_none_spec.
  destruct value as [|[]| | |]; done.
Qed.

Lemma Gui_clean_spec value : Gui.clean value = Spec.clean value.
Proof.
  unfold Gui.clean, Spec.clean. rewrite or_none_spec.
  destruct value as [|[]| | |]; done.
Qed.

Lemma Gui_clean_Cli value : Gui.clean value = Cli.clean value.
Proof. by rewrite Gui_clean_spec, Cli_clean_spec. Qed.

Lemma clean_Some value s :
  Spec.clean value = Some s →
  isna value = false ∧ s = strip (str value) ∧ s ≠ "" ∧ strip s = s.
Proof.
  unfold Spec.clean. destruct (isna value); [done|].
  case_decide as Hs; [done|]. intros [= <-].
  by rewrite strip_idemp.
Qed.

Lemma clean_None value :
  Spec.clean value = None ↔ isna value = true ∨ strip (str value) = "".
Proof.
  unfold Spec.clean.
  destruct (isna value), (decide (strip (str value) = ""));
    intuition congruence.
Qed.

Lemma Cli_clean_truthy value :
  truthy (Cli.clean value) = bool_decide (is_Some (Cli.clean value)).
Proof.
  rewrite Cli_clean_spec. destruct (Spec.clean value) as [s|] eqn:Hc; [|done].
  apply clean_Some in Hc as (_ & _ & Hs & _). by apply truthy_Some.
Qed.

End clean_facts.

(** C8. [clean], in both files, is the function of the specification: it
    returns null for a missing value (None or NaN) and when nothing is
    left of the string form after trimming, and otherwise the string form
    without its leading and trailing whitespace, which is then not empty;
    being a function it is total and deterministic. On the four inputs
    of the specification it gives null, null, null and "SPN 12". *)
Theorem clean_correct :
  (∀ value : Pandas.cell,
      Cli.clean value = Spec.clean value ∧
      Gui.clean value = Spec.clean value ∧
      match Cli.clean value with
      | None => Pandas.isna value = true ∨ PyStr.strip (Pandas.str value) = ""
      | Some s =>
          Pandas.isna value = false ∧ s = PyStr.strip (Pandas.str value) ∧
          s ≠ "" ∧ Spec.trimmed s ∧
          ∃ l r, Spec.blank l = true ∧ Spec.blank r = true ∧
                 Pandas.str value = l +:+ s +:+ r
      end) ∧
  map Cli.clean [Pandas.PyNone; Pandas.CStr ""; Pandas.CStr "  ";
                 Pandas.CStr " SPN 12 "; Pandas.CFloat PyFloat.Nan]
    = [None; None; None; Some "SPN 12"; None] ∧
  map Gui.clean [Pandas.PyNone; Pandas.CStr ""; Pandas.CStr "  ";
                 Pandas.CStr " SPN 12 "; Pandas.CFloat PyFloat.Nan]
    = [None; None; None; Some "SPN 12"; None].
Proof.
  split; [|by vm_compute].
  intros value. split; [apply Cli_clean_spec|]. split; [apply Gui_clean_spec|].
  rewrite Cli_clean_spec.
  destruct (Spec.clean value) as [s|] eqn:Hc.
  - apply clean_Some in Hc as (Hna & -> & Hs & _).
    repeat split; [done..|apply strip_trimmed|apply strip_decompose].
  - by apply clean_None.
Qed.

(** ** [normalize_alert_code] *)

Section alert_code_facts.
Import PyStr Pandas.
Local Open Scope Z_scope.

Lemma is_integer_value x :
  PyFloat.is_integer x = true ↔ ∃ z, Spec.is_value x z.
Proof.
  destruct x as [| |neg m e]; simpl;
    [split; [done|by intros [? ?]]..|].
  destruct (Z.leb_spec 0 e) as [He|He]; simpl.
  - split; [intros _|done].
    exists ((if neg then - m else m) * 2 ^ e).
    rewrite Z.max_l, Z.max_r by lia. by rewrite Z.pow_0_r, Z.mul_1_r.
  - rewrite Z.max_r, Z.max_l by lia. rewrite Z.pow_0_r, Z.mul_1_r.
    assert (0 < 2 ^ (- e)) as Hd by (apply Z.pow_pos_nonneg; lia).
    rewrite Z.eqb_eq. split.
    + intros Hm. apply Z.mod_divide in Hm as [q Hq]; [|lia].
      exists (if neg then - q else q). destruct neg; lia.
    + intros [z Hz]. apply Z.mod_divide; [lia|].
      exists (if neg then - z else z). destruct neg; lia.
Qed.

Lemma to_int_value x :
  PyFloat.is_integer x = true → Spec.is_value x (PyFloat.to_int x).
Proof.
  destruct x as [| |neg m e]; simpl; [done..|].
  destruct (Z.leb_spec 0 e) as [He|He]; simpl.
  - intros _. rewrite Z.max_l, Z.max_r by lia.
    rewrite Z.pow_0_r, Z.mul_1_r. destruct neg; lia.
  - rewrite Z.max_r, Z.max_l by lia. rewrite Z.pow_0_r, Z.mul_1_r.
    assert (0 < 2 ^ (- e)) as Hd by (apply Z.pow_pos_nonneg; lia).
    rewrite Z.eqb_eq. intros Hm.
    pose proof (Z.div_mod m (2 ^ (- e)) ltac:(lia)) as Hdm.
    destruct neg; lia.
Qed.

Lemma Gui_normalize_alert_code_Cli value :
  Gui.normalize_alert_code value = Cli.normalize_alert_code value.
Proof.
  unfold Gui.normalize_alert_code, Cli.normalize_alert_code.
  by rewrite Gui_clean_Cli.
Qed.

End alert_code_facts.

(** C2. [normalize_alert_code] first cleans the cell. It returns null when
    the cleaned cell is null; the cleaned text itself when [float] rejects
    it; when [float] reads a number that is an integer, the decimal string
    of that integer; and when it reads any other number, the string form
    of the number. So "5.0" gives "5", "5.5" gives "5.5", "ABC" gives "ABC"
    and null gives null. *)
Theorem normalize_alert_code_cases :
  (∀ value : Pandas.cell,
      match Cli.clean value with
      | None => Cli.normalize_alert_code value = None
      | Some raw =>
          match PyFloat.of_str raw with
          | None => Cli.normalize_alert_code value = Some raw
          | Some x =>
              if PyFloat.is_integer x then
                Spec.is_value x (PyFloat.to_int x) ∧
                Cli.normalize_alert_code value = Some (pretty (PyFloat.to_int x))
              else
                (¬ ∃ z, Spec.is_value x z) ∧
                Cli.normalize_alert_code value = Some (PyFloat.to_str x)
          end
      end) ∧
  map Cli.normalize_alert_code
      [Pandas.CStr "5.0"; Pandas.CStr "5.5"; Pandas.CStr "ABC"; Pandas.PyNone;
       Pandas.CStr " 12.0 "; Pandas.CStr "-3"; Pandas.CStr "1e3";
       Pandas.CStr "0.25"; Pandas.CStr "E110"; Pandas.CStr "";
       Pandas.CInt 7; Pandas.CFloat (PyFloat.Fin false 5 0);
       Pandas.CFloat PyFloat.Nan]
    = [Some "5"; Some "5.5"; Some "ABC"; None;
       Some "12"; Some "-3"; Some "1000";
       Some "0.25"; Some "E110"; None;
       Some "7"; Some "5";
       None].
Proof.
  split; [|by vm_compute].
  intros value. unfold Cli.normalize_alert_code.
  destruct (Cli.clean value) as [raw|]; [|done].
  destruct (PyFloat.of_str raw) as [x|]; [|done].
  destruct (PyFloat.is_integer x) eqn:Hx.
  - split; [by apply to_int_value|done].
  - split; [|done]. intros Hz. apply is_integer_value in Hz. congruence.
Qed.

(** ** [join_labeled] *)

Section join_labeled_facts.
Import PyStr.

Lemma omap_guard {A B} (p : A → bool) (g : A → B) (f : A → option B) l :
  (∀ x, f x = if p x then Some (g x) else None) →
  omap f l = map g (List.filter p l).
Proof.
  intros Hf. induction l as [|x l IH]; [done|]. simpl.
  rewrite Hf. destruct (p x); simpl; by rewrite <- IH.
Qed.

Lemma strip_nonempty v : strip v ≠ "" → v ≠ "".
Proof. by intros H ->. Qed.

Lemma Cli_join_labeled_spec fields :
  Cli.join_labeled fields = Spec.join_with Spec.survives Spec.trimmed_line fields.
Proof.
  unfold Cli.join_labeled, Spec.join_with.
  rewrite (omap_guard Spec.survives Spec.trimmed_line);
    [by destruct (List.filter Spec.survives fields)|].
  intros [label [v|]]; [|done].
  unfold Spec.survives, Spec.trimmed_line.
  change ((if truthy (Some v) && truthy (Some (strip v))
           then Some (label +:+ ": " +:+ strip v) else None)
          = (if negb (String.eqb (strip v) "")
             then Some (label +:+ ": " +:+ strip v) else None)).
  destruct (String.eqb_spec (strip v) "") as [Hv|Hv].
  - rewrite (proj2 (truthy_Some_false _) Hv). by rewrite andb_false_r.
  - rewrite (proj2 (truthy_Some _) Hv).
    by rewrite (proj2 (truthy_Some _) (strip_nonempty _ Hv)).
Qed.

Lemma Gui_join_labeled_spec fields :
  Gui.join_labeled fields = Spec.join_with Spec.present Spec.line fields.
Proof.
  unfold Gui.join_labeled, Spec.join_with.
  rewrite (omap_guard Spec.present Spec.line);
    [by destruct (List.filter Spec.present fields)|].
  intros [label [v|]]; [|done]. unfold Spec.present, Spec.line. simpl.
  by destruct (truthy (Some v)).
Qed.

Lemma join_with_ext keep1 keep2 render1 render2 fields :
  Forall (λ f, keep1 f = keep2 f ∧ (keep1 f = true → render1 f = render2 f)) fields →
  Spec.join_with keep1 render1 fields = Spec.join_with keep2 render2 fields.
Proof.
  intros H. unfold Spec.join_with.
  assert (List.filter keep1 fields = List.filter keep2 fields ∧
          map render1 (List.filter keep1 fields)
          = map render2 (List.filter keep1 fields)) as [E1 E2].
  { induction H as [|f l [Hk Hr] _ [IH1 IH2]]; [done|]. simpl.
    rewrite <- Hk. destruct (keep1 f) eqn:Hf; simpl; [|done].
    rewrite IH2, Hr by done. by rewrite IH1. }
  rewrite <- E1. destruct (List.filter keep1 fields); [done|]. by rewrite E2.
Qed.

Lemma cleaned_survives f :
  Spec.cleaned f.2 →
  Spec.survives f = Spec.present f ∧
  (Spec.survives f = true → Spec.trimmed_line f = Spec.line f).
Proof.
  destruct f as [label [v|]]; [|done].
  intros [Hv Hs]. unfold Spec.survives, Spec.present, Spec.trimmed_line, Spec.line.
  change (negb (String.eqb (strip v) "") = truthy (Some v) ∧
          (negb (String.eqb (strip v) "") = true →
           label +:+ ": " +:+ strip v = label +:+ ": " +:+ v)).
  rewrite Hs. split; [|done].
  rewrite (proj2 (truthy_Some _) Hv). by destruct (String.eqb_spec v "").
Qed.

Lemma join_labeled_cleaned fields :
  Forall (λ f, Spec.cleaned f.2) fields →
  Cli.join_labeled fields = Spec.join_labeled fields ∧
  Gui.join_labeled fields = Spec.join_labeled fields.
Proof.
  intros H. rewrite Cli_join_labeled_spec, Gui_join_labeled_spec.
  unfold Spec.join_labeled. split.
  - apply join_with_ext. eapply Forall_impl; [done|].
    intros f Hf. apply cleaned_survives in Hf as [_ Hf]. done.
  - symmetry. apply join_with_ext. eapply Forall_impl; [done|].
    intros f Hf. by apply cleaned_survives in Hf as [Hf _].
Qed.

Lemma Gui_join_labeled_Cli fields :
  Forall (λ f, Spec.cleaned f.2) fields →
  Gui.join_labeled fields = Cli.join_labeled fields.
Proof. intros [-> ->]%join_labeled_cleaned. done. Qed.

Lemma Cli_clean_cleaned value : Spec.cleaned (Cli.clean value).
Proof.
  rewrite Cli_clean_spec. destruct (Spec.clean value) as [s|] eqn:H; [|done].
  by apply clean_Some in H as (_ & _ & ? & ?).
Qed.

End join_labeled_facts.


(** ** The records *)

Section record_facts.
Import PyStr Pandas Dict.

Lemma foldl_snoc_map {A B} (f : A → B) (init : list B) (l : list A) :
  foldl (λ acc x, acc ++ [f x]) init l = init ++ map f l.
Proof.
  revert init. induction l as [|x l IH]; intros init; simpl.
  - by rewrite app_nil_r.
  - by rewrite IH, <- app_assoc.
Qed.

Lemma Gui_terberg_record_Cli row : Gui.terberg_record row = Cli.terberg_record row.
Proof.
  unfold Gui.terberg_record, Cli.terberg_record.
  by rewrite !Gui_clean_Cli.
Qed.

Lemma Gui_venti_record_Cli row : Gui.venti_record row = Cli.venti_record row.
Proof.
  unfold Gui.venti_record, Cli.venti_record.
  rewrite !Gui_clean_Cli, Gui_normalize_alert_code_Cli.
  rewrite !Gui_join_labeled_Cli by (repeat constructor; apply Cli_clean_cleaned).
  done.
Qed.

Lemma Cli_terberg_complete row :
  Spec.complete Spec.terberg_absent (Cli.terberg_record row).
Proof.
  split; [reflexivity|]. split.
  - repeat (constructor; [eexists; reflexivity|]). constructor.
  - repeat (constructor; [reflexivity|]). constructor.
Qed.

Lemma Cli_venti_complete row :
  Spec.complete Spec.venti_absent (Cli.venti_record row).
Proof.
  split; [reflexivity|]. split.
  - repeat (constructor; [eexists; reflexivity|]). constructor.
  - repeat (constructor; [reflexivity|]). constructor.
Qed.

Lemma Cli_load_terberg_eq read_csv path :
  Cli.load_terberg read_csv path
  = match read_csv path None with
    | Ok df => Ok (map Cli.terberg_record (iterrows df))
    | Raise e => Raise e
    end.
Proof.
  unfold Cli.load_terberg. destruct (read_csv path None); [|done].
  simpl. by rewrite foldl_snoc_map.
Qed.

Lemma Cli_load_venti_eq read_csv path :
  Cli.load_venti read_csv path
  = match read_csv path (Some "latin1") with
    | Ok df => Ok (map Cli.venti_record (iterrows df))
    | Raise e => Raise e
    end.
Proof.
  unfold Cli.load_venti. destruct (read_csv path (Some "latin1")); [|done].
  simpl. by rewrite foldl_snoc_map.
Qed.

Lemma Gui_normalize_terberg_eq df :
  Gui.normalize_terberg df = map Cli.terberg_record (iterrows df).
Proof.
  unfold Gui.normalize_terberg. rewrite foldl_snoc_map. simpl.
  apply map_ext. intros row. apply Gui_terberg_record_Cli.
Qed.

Lemma Gui_normalize_venti_eq df :
  Gui.normalize_venti df = map Cli.venti_record (iterrows df).
Proof.
  unfold Gui.normalize_venti. rewrite foldl_snoc_map. simpl.
  apply map_ext. intros row. apply Gui_venti_record_Cli.
Qed.

Lemma Forall_map_all {A B} (P : B → Prop) (f : A → B) l :
  (∀ x, P (f x)) → Forall P (map f l).
Proof. intros H. induction l; constructor; auto. Qed.

End record_facts.

(** C3. Every record of either normalizer, in both files, has exactly the
    seventeen fields of the table of section 3, in that order. A Terberg
    record holds an explicit null in alert_code, notes, color, stop_reason
    and rationale; a Venti record holds one in spn and fmi. *)
Theorem records_complete :
  (∀ row : Pandas.Series,
      Spec.complete Spec.terberg_absent (Cli.terberg_record row) ∧
      Spec.complete Spec.venti_absent (Cli.venti_record row) ∧
      Spec.complete Spec.terberg_absent (Gui.terberg_record row) ∧
      Spec.complete Spec.venti_absent (Gui.venti_record row)) ∧
  (∀ df : Pandas.DataFrame,
      Forall (Spec.complete Spec.terberg_absent) (Gui.normalize_terberg df) ∧
      Forall (Spec.complete Spec.venti_absent) (Gui.normalize_venti df)) ∧
  (∀ read_csv path,
      match Cli.load_terberg read_csv path with
      | Ok records => Forall (Spec.complete Spec.terberg_absent) records
      | Raise _ => True
      end ∧
      match Cli.load_venti read_csv path with
      | Ok records => Forall (Spec.complete Spec.venti_absent) records
      | Raise _ => True
      end).
Proof.
  split; [|split].
  - intros row. rewrite Gui_terberg_record_Cli, Gui_venti_record_Cli.
    auto using Cli_terberg_complete, Cli_venti_complete.
  - intros df. rewrite Gui_normalize_terberg_eq, Gui_normalize_venti_eq.
    split; apply Forall_map_all;
      auto using Cli_terberg_complete, Cli_venti_complete.
  - intros read_csv path. rewrite Cli_load_terberg_eq, Cli_load_venti_eq.
    split; [destruct (read_csv path None)|destruct (read_csv path (Some "latin1"))];
      try done; apply Forall_map_all;
      auto using Cli_terberg_complete, Cli_venti_complete.
Qed.

(** ** Search terms *)

Section search_terms_facts.
Import PyStr Pandas Dict.

Lemma elem_of_truthy_items x candidates :
  x ∈ truthy_items candidates ↔ x ≠ "" ∧ Some x ∈ candidates.
Proof.
  unfold truthy_items. rewrite list_elem_of_omap. split.
  - intros (t & Ht & Hx). destruct (truthy t) eqn:Htr; [|done]. subst t.
    split; [by apply truthy_Some|done].
  - intros [Hx Hin]. exists (Some x). split; [done|].
    by rewrite (proj2 (truthy_Some x) Hx).
Qed.

Lemma sorted_list_to_set (l1 l2 : list string) :
  (∀ x, x ∈ l1 ↔ x ∈ l2) →
  sorted (list_to_set l1) = merge_sort String.le (remove_dups l2).
Proof.
  intros H. unfold sorted.
  apply (StronglySorted_unique String.le);
    [apply StronglySorted_merge_sort; apply _..|].
  rewrite !merge_sort_Permutation.
  apply NoDup_Permutation; [apply NoDup_elements|apply NoDup_remove_dups|].
  intros x. by rewrite elem_of_elements, elem_of_list_to_set, elem_of_remove_dups.
Qed.

Lemma search_terms_elem x candidates :
  x ∈ Spec.search_terms candidates ↔ x ≠ "" ∧ Some x ∈ candidates.
Proof.
  unfold Spec.search_terms.
  by rewrite merge_sort_Permutation, elem_of_remove_dups, elem_of_truthy_items.
Qed.

Lemma search_terms_NoDup candidates : NoDup (Spec.search_terms candidates).
Proof.
  unfold Spec.search_terms. rewrite merge_sort_Permutation.
  apply NoDup_remove_dups.
Qed.

Lemma StronglySorted_strict (l : list string) :
  StronglySorted String.le l → NoDup l → Sorted Spec.lt l.
Proof.
  induction 1 as [|x l Hl IH Hx]; intros Hnd; [constructor|].
  apply NoDup_cons in Hnd as [Hx' Hnd]. constructor; [by apply IH|].
  destruct l as [|y l]; constructor.
  apply Forall_cons in Hx as [Hxy _]. split; [done|].
  intros ->. apply Hx'. by left.
Qed.

Lemma search_terms_ascending candidates :
  Sorted Spec.lt (Spec.search_terms candidates).
Proof.
  apply StronglySorted_strict; [|apply search_terms_NoDup].
  apply StronglySorted_merge_sort; apply _.
Qed.

Lemma field_of_opt o : match of_opt o with Str s => Some s | _ => None end = o.
Proof. by destruct o. Qed.

Lemma falsy_not_candidate (o : option string) x :
  truthy o = false → x ≠ "" → Some x ≠ o.
Proof. intros Ho Hx <-. apply truthy_Some in Hx. congruence. Qed.

Lemma Cli_terberg_search_terms row :
  let r := Cli.terberg_record row in
  getitem r "search_terms"
  = Some (Strs (Spec.search_terms
                  [Spec.field r "code_display"; Cli.clean (get row "Foutcode");
                   Spec.field r "description"])).
Proof.
  intros r. unfold Spec.field, Spec.search_terms.
  change (getitem r "search_terms") with
    (Some (Strs (sorted (list_to_set (truthy_items
       [ (if truthy (Cli.clean (get row "SPN")) && truthy (Cli.clean (get row "FMI"))
          then Some ("SPN " +:+ fmt (Cli.clean (get row "SPN")) +:+ " FMI "
                     +:+ fmt (Cli.clean (get row "FMI")))
          else if truthy (Cli.clean (get row "SPN"))
               then Some ("SPN " +:+ fmt (Cli.clean (get row "SPN")))
               else None);
         Cli.clean (get row "Foutcode");
         Cli.clean (get row "Omschrijving") ]))))).
  set (cd := if _ && _ then _ else _).
  change (getitem r "code_display") with
    (Some (of_opt (py_or cd (Cli.clean (get row "Foutcode"))))).
  change (getitem r "description") with
    (Some (of_opt (Cli.clean (get row "Omschrijving")))).
  cbv beta iota. rewrite !field_of_opt. do 2 f_equal. apply sorted_list_to_set.
  intros x. rewrite !elem_of_truthy_items, !elem_of_cons, !elem_of_nil.
  unfold py_or. destruct (truthy cd) eqn:Hcd; [done|].
  pose proof (falsy_not_candidate cd x Hcd). intuition.
Qed.

Lemma Cli_venti_search_terms row :
  let r := Cli.venti_record row in
  getitem r "search_terms"
  = Some (Strs (Spec.search_terms
                  [Spec.field r "alert_code"; Spec.field r "title";
                   Spec.field r "description"; Spec.field r "cause";
                   Spec.field r "category"])).
Proof.
  intros r. unfold Spec.field, Spec.search_terms.
  set (ac := Cli.normalize_alert_code (get row "Alert Fault code #")).
  set (title := Cli.clean (get row "Alert message")).
  change (getitem r "search_terms") with
    (Some (Strs (sorted (list_to_set (truthy_items
       [ ac; title; Cli.clean (get row "Meaning");
         Cli.clean (get row "Associated Reasons");
         Cli.clean (get row "Categorization") ]))))).
  change (getitem r "alert_code") with (Some (of_opt ac)).
  change (getitem r "title") with (Some (of_opt (py_or title ac))).
  change (getitem r "description") with
    (Some (of_opt (Cli.clean (get row "Meaning")))).
  change (getitem r "cause") with
    (Some (of_opt (Cli.clean (get row "Associated Reasons")))).
  change (getitem r "category") with
    (Some (of_opt (Cli.clean (get row "Categorization")))).
  cbv beta iota. rewrite !field_of_opt. do 2 f_equal. apply sorted_list_to_set.
  intros x. rewrite !elem_of_truthy_items, !elem_of_cons, !elem_of_nil.
  unfold py_or. destruct (truthy title) eqn:Ht; [done|].
  pose proof (falsy_not_candidate title x Ht). intuition.
Qed.

End search_terms_facts.

(** C4. The search terms of a record are the candidates of its schema
    (Terberg: code_display, the cleaned Foutcode, description; Venti:
    alert_code, title, description, cause, category) with nulls and empty
    strings dropped and duplicates removed, in strictly ascending code
    point order; so the list has no empty and no repeated entry, and holds
    exactly the non-empty candidates. The same in both files. *)
Theorem search_terms_correct :
  (∀ row : Pandas.Series,
      let t := Cli.terberg_record row in
      let v := Cli.venti_record row in
      Dict.getitem t "search_terms"
      = Some (Dict.Strs (Spec.search_terms
                [Spec.field t "code_display";
                 Cli.clean (Pandas.get row "Foutcode");
                 Spec.field t "description"])) ∧
      Dict.getitem v "search_terms"
      = Some (Dict.Strs (Spec.search_terms
                [Spec.field v "alert_code"; Spec.field v "title";
                 Spec.field v "description"; Spec.field v "cause";
                 Spec.field v "category"])) ∧
      Gui.terberg_record row = t ∧ Gui.venti_record row = v) ∧
  (∀ candidates : list (option string),
      let terms := Spec.search_terms candidates in
      NoDup terms ∧ ("" ∉ terms) ∧ Sorted Spec.lt terms ∧
      ∀ x, x ∈ terms ↔ x ≠ "" ∧ Some x ∈ candidates).
Proof.
  split.
  - intros row t v. split; [apply Cli_terberg_search_terms|].
    split; [apply Cli_venti_search_terms|].
    split; [apply Gui_terberg_record_Cli|apply Gui_venti_record_Cli].
  - intros candidates terms. split; [apply search_terms_NoDup|].
    split; [intros H; by apply search_terms_elem in H as [? _]|].
    split; [apply search_terms_ascending|intros x; apply search_terms_elem].
Qed.

(** ** Code and title *)

Section display_facts.
Import PyStr Pandas Dict.

Lemma Cli_clean_Some_truthy value s : Cli.clean value = Some s → truthy (Some s) = true.
Proof.
  intros H. rewrite Cli_clean_spec in H.
  apply clean_Some in H as (_ & _ & Hs & _). by apply truthy_Some.
Qed.

Lemma py_or_clean value b :
  py_or (Cli.clean value) b = match Cli.clean value with Some s => Some s | None => b end.
Proof.
  destruct (Cli.clean value) as [s|] eqn:H; [|done].
  unfold py_or. by rewrite (Cli_clean_Some_truthy _ _ H).
Qed.

End display_facts.

(** C5. For a Terberg row, with spn, fmi and foutcode the cleaned cells
    of SPN, FMI and Foutcode: code_display is "SPN {spn} FMI {fmi}" when
    spn and fmi are both present, "SPN {spn}" when only spn is, and
    foutcode otherwise; title is foutcode when present and code_display
    otherwise. For a Venti row code_display is alert_code, the normalized
    cell of "Alert Fault code #", and title is the cleaned alert message
    when present and alert_code otherwise. The same in both files. *)
Theorem code_display_and_title (row : Pandas.Series) :
  let spn := Cli.clean (Pandas.get row "SPN") in
  let fmi := Cli.clean (Pandas.get row "FMI") in
  let foutcode := Cli.clean (Pandas.get row "Foutcode") in
  let code_display :=
    match spn, fmi with
    | Some s, Some f => Some ("SPN " +:+ s +:+ " FMI " +:+ f)
    | Some s, None => Some ("SPN " +:+ s)
    | None, _ => foutcode
    end in
  let alert_code := Cli.normalize_alert_code (Pandas.get row "Alert Fault code #") in
  let message := Cli.clean (Pandas.get row "Alert message") in
  Dict.getitem (Cli.terberg_record row) "code_display"
    = Some (Dict.of_opt code_display) ∧
  Dict.getitem (Cli.terberg_record row) "title"
    = Some (Dict.of_opt (match foutcode with Some c => Some c | None => code_display end)) ∧
  Dict.getitem (Cli.venti_record row) "alert_code" = Some (Dict.of_opt alert_code) ∧
  Dict.getitem (Cli.venti_record row) "code_display" = Some (Dict.of_opt alert_code) ∧
  Dict.getitem (Cli.venti_record row) "title"
    = Some (Dict.of_opt (match message with Some m => Some m | None => alert_code end)) ∧
  Gui.terberg_record row = Cli.terberg_record row ∧
  Gui.venti_record row = Cli.venti_record row.
Proof.
  intros spn fmi foutcode code_display alert_code message.
  split; [|split; [|split; [reflexivity|split; [reflexivity|split]]]].
  - change (Dict.getitem (Cli.terberg_record row) "code_display") with
      (Some (Dict.of_opt (PyStr.py_or
         (if PyStr.truthy spn && PyStr.truthy fmi
          then Some ("SPN " +:+ PyStr.fmt spn +:+ " FMI " +:+ PyStr.fmt fmi)
          else if PyStr.truthy spn then Some ("SPN " +:+ PyStr.fmt spn) else None)
         foutcode))).
    do 2 f_equal. subst code_display.
    unfold spn, fmi. rewrite !Cli_clean_truthy.
    destruct (Cli.clean (Pandas.get row "SPN")) as [s|],
             (Cli.clean (Pandas.get row "FMI")) as [f|]; done.
  - change (Dict.getitem (Cli.terberg_record row) "title") with
      (Some (Dict.of_opt (PyStr.py_or foutcode
         (if PyStr.truthy spn && PyStr.truthy fmi
          then Some ("SPN " +:+ PyStr.fmt spn +:+ " FMI " +:+ PyStr.fmt fmi)
          else if PyStr.truthy spn then Some ("SPN " +:+ PyStr.fmt spn) else None)))).
    do 2 f_equal. subst code_display. unfold foutcode at 1. rewrite py_or_clean.
    fold foutcode. destruct foutcode as [c|]; [done|].
    unfold spn, fmi. rewrite !Cli_clean_truthy.
    destruct (Cli.clean (Pandas.get row "SPN")) as [s|],
             (Cli.clean (Pandas.get row "FMI")) as [f|]; done.
  - change (Dict.getitem (Cli.venti_record row) "title") with
      (Some (Dict.of_opt (PyStr.py_or message alert_code))).
    do 2 f_equal. unfold message. apply py_or_clean.
  - split; [apply Gui_terberg_record_Cli|apply Gui_venti_record_Cli].
Qed.

(** ** The data set of the batch entry point *)

Section dataset_facts.
Import PyStr Pandas Dict.

Lemma iterrows_length df : length (iterrows df) = len df.
Proof. unfold iterrows, len. by rewrite length_map. Qed.

Lemma Cli_build_dataset_eq read_csv terberg_path venti_path :
  Cli.build_dataset read_csv terberg_path venti_path
  = match read_csv terberg_path None with
    | Ok tdf =>
        match read_csv venti_path (Some "latin1") with
        | Ok vdf =>
            Ok (map Cli.terberg_record (iterrows tdf)
                ++ map Cli.venti_record (iterrows vdf))
        | Raise e => Raise e
        end
    | Raise e => Raise e
    end.
Proof.
  unfold Cli.build_dataset. rewrite Cli_load_terberg_eq, Cli_load_venti_eq.
  destruct (read_csv terberg_path None); [|done]. simpl.
  by destruct (read_csv venti_path (Some "latin1")).
Qed.

Lemma Cli_terberg_source row : Spec.source (Cli.terberg_record row) = Some "terberg".
Proof. reflexivity. Qed.

Lemma Cli_venti_source row : Spec.source (Cli.venti_record row) = Some "venti".
Proof. reflexivity. Qed.

End dataset_facts.

(** C6. When both tables are read, [build_dataset] returns the records of
    the Terberg rows followed by the records of the Venti rows, one record
    per row and in the order of the rows: its length is the sum of the two
    row counts, the record at a position below the Terberg row count is
    the Terberg record of the row at that position, and the record at a
    later position is the Venti record of the corresponding row. No row is
    left out, whatever its cells hold. *)
Theorem build_dataset_rows
    (read_csv : string → option string → result Pandas.DataFrame)
    (terberg_path venti_path : string) (tdf vdf : Pandas.DataFrame) :
  read_csv terberg_path None = Ok tdf →
  read_csv venti_path (Some "latin1") = Ok vdf →
  ∃ data,
    Cli.build_dataset read_csv terberg_path venti_path = Ok data ∧
    length data = Pandas.len tdf + Pandas.len vdf ∧
    (∀ i, i < Pandas.len tdf →
          ∃ row, Pandas.iterrows tdf !! i = Some row ∧
                 data !! i = Some (Cli.terberg_record row) ∧
                 Spec.source (Cli.terberg_record row) = Some "terberg") ∧
    (∀ i, i < Pandas.len vdf →
          ∃ row, Pandas.iterrows vdf !! i = Some row ∧
                 data !! (Pandas.len tdf + i) = Some (Cli.venti_record row) ∧
                 Spec.source (Cli.venti_record row) = Some "venti").
Proof.
  intros Ht Hv. eexists. rewrite Cli_build_dataset_eq, Ht, Hv.
  split; [done|]. split; [|split].
  - by rewrite length_app, !length_map, !iterrows_length.
  - intros i Hi. rewrite <- iterrows_length in Hi.
    apply lookup_lt_is_Some_2 in Hi as [row Hrow]. exists row.
    split; [done|]. split; [|done].
    rewrite lookup_app_l by (by rewrite length_map; eapply lookup_lt_Some).
    by rewrite list_lookup_fmap, Hrow.
  - intros i Hi. rewrite <- iterrows_length in Hi.
    apply lookup_lt_is_Some_2 in Hi as [row Hrow]. exists row.
    split; [done|]. split; [|done].
    rewrite <- (iterrows_length tdf), <- (length_map Cli.terberg_record).
    rewrite lookup_app_r by lia.
    replace (_ + i - _) with i by lia.
    by rewrite list_lookup_fmap, Hrow.
Qed.

Lemma build_dataset_rows_witness :
  ∃ data,
    Cli.build_dataset Examples.read_csv "terberg.csv" "venti.csv" = Ok data ∧
    length data = Pandas.len Examples.terberg_table + Pandas.len Examples.venti_table ∧
    (∀ i, i < Pandas.len Examples.terberg_table →
          ∃ row, Pandas.iterrows Examples.terberg_table !! i = Some row ∧
                 data !! i = Some (Cli.terberg_record row) ∧
                 Spec.source (Cli.terberg_record row) = Some "terberg") ∧
    (∀ i, i < Pandas.len Examples.venti_table →
          ∃ row, Pandas.iterrows Examples.venti_table !! i = Some row ∧
                 data !! (Pandas.len Examples.terberg_table + i)
                 = Some (Cli.venti_record row) ∧
                 Spec.source (Cli.venti_record row) = Some "venti").
Proof.
  apply (build_dataset_rows Examples.read_csv "terberg.csv" "venti.csv");
    reflexivity.
Defined.

(** ** Schema detection *)

Section detection_facts.
Import PyStr Pandas Dict.

Lemma is_terberg_labels df :
  Gui.is_terberg df = true ↔ Forall (λ c, c ∈ columns df) Spec.terberg_labels.
Proof.
  unfold Gui.is_terberg, Gui.terberg_columns, Spec.terberg_labels.
  rewrite bool_decide_eq_true, !Forall_cons, Forall_nil.
  rewrite !union_subseteq, !singleton_subseteq_l, !elem_of_list_to_set.
  tauto.
Qed.

Lemma is_venti_label df :
  Gui.is_venti df = true ↔ "Alert Fault code #" ∈ columns df.
Proof. unfold Gui.is_venti. by rewrite bool_decide_eq_true. Qed.

Lemma normalize_dataframe_detect df :
  Gui.normalize_dataframe df
  = match Spec.detect (columns df) with
    | Some Spec.Terberg => Ok (Gui.normalize_terberg df)
    | Some Spec.Venti => Ok (Gui.normalize_venti df)
    | None => Raise (ValueError Gui.not_recognized)
    end.
Proof.
  unfold Gui.normalize_dataframe, Spec.detect.
  destruct (Gui.is_terberg df) eqn:Ht.
  - apply is_terberg_labels in Ht. by rewrite decide_True.
  - rewrite decide_False
      by (intros H; apply is_terberg_labels in H; congruence).
    destruct (Gui.is_venti df) eqn:Hv.
    + apply is_venti_label in Hv. by rewrite decide_True.
    + rewrite decide_False; [done|].
      intros H; apply is_venti_label in H; congruence.
Qed.

Lemma normalize_terberg_sources df :
  Forall (λ r, Spec.source r = Some "terberg") (Gui.normalize_terberg df).
Proof.
  rewrite Gui_normalize_terberg_eq. apply Forall_map_all, Cli_terberg_source.
Qed.

Lemma normalize_venti_sources df :
  Forall (λ r, Spec.source r = Some "venti") (Gui.normalize_venti df).
Proof.
  rewrite Gui_normalize_venti_eq. apply Forall_map_all, Cli_venti_source.
Qed.

Lemma normalize_length df :
  length (Gui.normalize_terberg df) = len df ∧
  length (Gui.normalize_venti df) = len df.
Proof.
  rewrite Gui_normalize_terberg_eq, Gui_normalize_venti_eq.
  by rewrite !length_map, iterrows_length.
Qed.

End detection_facts.

(** C7. [normalize_dataframe] decides on the column labels alone: when
    SPN, FMI, Foutcode and Omschrijving are all among them it returns the
    records of the Terberg normalizer; otherwise, when "Alert Fault code #"
    is among them, those of the Venti normalizer; otherwise it raises the
    error that the CSV type is not recognized. In that last case
    [convert] shows the error and does not write a file; in the two others
    it writes the records to the file with the suffix ".json". *)
Theorem schema_detection (df : Pandas.DataFrame) :
  Gui.normalize_dataframe df
  = match Spec.detect (Pandas.columns df) with
    | Some Spec.Terberg => Ok (Gui.normalize_terberg df)
    | Some Spec.Venti => Ok (Gui.normalize_venti df)
    | None => Raise (ValueError Gui.not_recognized)
    end ∧
  ∀ (with_suffix : string → string → string) (name : string → string)
    (write_text : string → list Dict.dict → result unit) (path : string),
    let trace :=
      Gui.convert with_suffix name write_text
        {| Gui.df := Some df; Gui.current_path := Some path |} in
    match Spec.detect (Pandas.columns df) with
    | Some Spec.Terberg =>
        head trace = Some (Gui.WriteText (with_suffix path ".json")
                                         (Gui.normalize_terberg df))
    | Some Spec.Venti =>
        head trace = Some (Gui.WriteText (with_suffix path ".json")
                                         (Gui.normalize_venti df))
    | None =>
        trace = [Gui.ShowError "Error"
                   ("Conversion failed: " +:+ Gui.not_recognized)]
    end.
Proof.
  split; [apply normalize_dataframe_detect|].
  intros with_suffix name write_text path. unfold Gui.convert. simpl.
  rewrite normalize_dataframe_detect.
  destruct (Spec.detect (Pandas.columns df)) as [[]|]; [| |done];
    by destruct (write_text _ _).
Qed.

(** C10. A table whose columns pass both tests, with SPN, FMI, Foutcode
    and Omschrijving and also "Alert Fault code #" among its labels, is
    given to the Terberg normalizer: the result is that normalizer's, every
    record has the source "terberg", and unless the table has no rows the
    result is not what the Venti normalizer returns. *)
Theorem terberg_precedence (df : Pandas.DataFrame) :
  Forall (λ c, c ∈ Pandas.columns df) Spec.terberg_labels →
  "Alert Fault code #" ∈ Pandas.columns df →
  Gui.is_terberg df = true ∧ Gui.is_venti df = true ∧
  Gui.normalize_dataframe df = Ok (Gui.normalize_terberg df) ∧
  Forall (λ r, Spec.source r = Some "terberg") (Gui.normalize_terberg df) ∧
  (0 < Pandas.len df →
   Gui.normalize_dataframe df ≠ Ok (Gui.normalize_venti df)).
Proof.
  intros Ht Hv.
  split; [by apply is_terberg_labels|]. split; [by apply is_venti_label|].
  assert (Gui.normalize_dataframe df = Ok (Gui.normalize_terberg df)) as E.
  { unfold Gui.normalize_dataframe. by rewrite (proj2 (is_terberg_labels df) Ht). }
  split; [done|]. split; [apply normalize_terberg_sources|].
  intros Hlen. rewrite E. intros [= E'].
  pose proof (normalize_terberg_sources df) as H1.
  pose proof (normalize_venti_sources df) as H2.
  pose proof (normalize_length df) as [Hl _].
  rewrite E' in H1 at 1. rewrite E' in Hl.
  destruct (Gui.normalize_venti df) as [|r rs]; [simpl in Hl; lia|].
  apply Forall_cons in H1 as [H1 _]. apply Forall_cons in H2 as [H2 _].
  congruence.
Qed.

Lemma terberg_precedence_witness :
  Gui.is_terberg Examples.mixed_table = true ∧
  Gui.is_venti Examples.mixed_table = true ∧
  Gui.normalize_dataframe Examples.mixed_table
    = Ok (Gui.normalize_terberg Examples.mixed_table) ∧
  Forall (λ r, Spec.source r = Some "terberg")
         (Gui.normalize_terberg Examples.mixed_table) ∧
  (0 < Pandas.len Examples.mixed_table →
   Gui.normalize_dataframe Examples.mixed_table
   ≠ Ok (Gui.normalize_venti Examples.mixed_table)).
Proof.
  apply (terberg_precedence Examples.mixed_table).
  - apply (bool_decide_unpack _). by vm_compute.
  - apply (bool_decide_unpack _). by vm_compute.
Defined.

(** C9. On every table the normalization of build_fault_json.py and that
    of gui_fault_converter.py give the same records: [load_terberg] and
    [load_venti] return, for the table [read_csv] hands them, what
    [normalize_terberg] and [normalize_venti] return for it, row by row.
    The copies of [clean] and [normalize_alert_code] are equal, and the two
    [join_labeled] agree on the cleaned values they are called on. *)
Theorem cli_gui_same_records :
  (∀ value : Pandas.cell,
      Gui.clean value = Cli.clean value ∧
      Gui.normalize_alert_code value = Cli.normalize_alert_code value) ∧
  (∀ fields : list (string * Pandas.cell),
      Gui.join_labeled (map (λ f, (f.1, Gui.clean f.2)) fields)
      = Cli.join_labeled (map (λ f, (f.1, Cli.clean f.2)) fields)) ∧
  (∀ row : Pandas.Series,
      Gui.terberg_record row = Cli.terberg_record row ∧
      Gui.venti_record row = Cli.venti_record row) ∧
  (∀ (read_csv : string → option string → result Pandas.DataFrame) path,
      Cli.load_terberg read_csv path
      = match read_csv path None with
        | Ok df => Ok (Gui.normalize_terberg df)
        | Raise e => Raise e
        end ∧
      Cli.load_venti read_csv path
      = match read_csv path (Some "latin1") with
        | Ok df => Ok (Gui.normalize_venti df)
        | Raise e => Raise e
        end).
Proof.
  split; [|split; [|split]].
  - intros value. split; [apply Gui_clean_Cli|apply Gui_normalize_alert_code_Cli].
  - intros fields.
    rewrite (map_ext (λ f, (f.1, Gui.clean f.2)) (λ f, (f.1, Cli.clean f.2)))
      by (intros f; by rewrite Gui_clean_Cli).
    apply Gui_join_labeled_Cli. apply Forall_map_all.
    intros f. apply Cli_clean_cleaned.
  - intros row. split; [apply Gui_terberg_record_Cli|apply Gui_venti_record_Cli].
  - intros read_csv path. rewrite Cli_load_terberg_eq, Cli_load_venti_eq.
    split; [destruct (read_csv path None)|destruct (read_csv path (Some "latin1"))];
      try done; f_equal; symmetry;
      [apply Gui_normalize_terberg_eq|apply Gui_normalize_venti_eq].
Qed.

(** ** The scenarios of the specification, evaluated *)

(** Properties 4 and 7: a Terberg row with SPN 110, FMI 2, Foutcode E110.
    Property 5 and the row without any value follow. *)
Example scenario_terberg :
  Gui.normalize_terberg Examples.terberg_table
  = [ [ ("source", Dict.Str "terberg"); ("alert_code", Dict.Null);
        ("spn", Dict.Str "110"); ("fmi", Dict.Str "2");
        ("code_display", Dict.Str "SPN 110 FMI 2"); ("title", Dict.Str "E110");
        ("description", Dict.Str "Engine overheat");
        ("severity", Dict.Str "Critical"); ("category", Dict.Null);
        ("action", Dict.Null); ("cause", Dict.Null); ("effect", Dict.Null);
        ("notes", Dict.Null); ("color", Dict.Null); ("stop_reason", Dict.Null);
        ("rationale", Dict.Null);
        ("search_terms", Dict.Strs ["E110"; "Engine overheat"; "SPN 110 FMI 2"]) ];
      [ ("source", Dict.Str "terberg"); ("alert_code", Dict.Null);
        ("spn", Dict.Null); ("fmi", Dict.Null);
        ("code_display", Dict.Null); ("title", Dict.Null);
        ("description", Dict.Null);
        ("severity", Dict.Null); ("category", Dict.Null);
        ("action", Dict.Null); ("cause", Dict.Null); ("effect", Dict.Null);
        ("notes", Dict.Null); ("color", Dict.Null); ("stop_reason", Dict.Null);
        ("rationale", Dict.Null);
        ("search_terms", Dict.Strs []) ] ].
Proof. by vm_compute. Qed.

Example scenario_spn_only :
  Spec.field (Cli.terberg_record [("SPN", Pandas.CStr "100")]) "code_display"
  = Some "SPN 100" ∧
  Spec.field (Cli.terberg_record [("SPN", Pandas.CStr "100"); ("FMI", Pandas.CStr "4")])
             "code_display"
  = Some "SPN 100 FMI 4".
Proof. by vm_compute. Qed.

(** Property 8: a Venti row whose alert code is the number 12.0. *)
Example scenario_venti :
  Gui.normalize_venti Examples.venti_table
  = [ [ ("source", Dict.Str "venti"); ("alert_code", Dict.Str "12");
        ("spn", Dict.Null); ("fmi", Dict.Null);
        ("code_display", Dict.Str "12"); ("title", Dict.Str "Brake fault");
        ("description", Dict.Null); ("severity", Dict.Null);
        ("category", Dict.Null);
        ("action", Dict.Str "AVC Action: Stop vehicle");
        ("cause", Dict.Null); ("effect", Dict.Null);
        ("notes", Dict.Str "Notes: Check sensor"); ("color", Dict.Null);
        ("stop_reason", Dict.Null); ("rationale", Dict.Null);
        ("search_terms", Dict.Strs ["12"; "Brake fault"]) ] ].
Proof. by vm_compute. Qed.

(** A table of neither schema: the error is shown and nothing is written. *)
Example scenario_not_recognized :
  Gui.normalize_dataframe Examples.other_table
  = Raise (ValueError "CSV type not recognized (expected Terberg or Venti columns).") ∧
  Gui.convert (λ path suffix, path +:+ suffix) id (λ _ _, Ok ())
    {| Gui.df := Some Examples.other_table; Gui.current_path := Some "faults" |}
  = [ Gui.ShowError "Error"
        "Conversion failed: CSV type not recognized (expected Terberg or Venti columns)." ].
Proof. by vm_compute. Qed.

(** What [float] reads and [str] writes, on a few strings. *)
Example scenario_float :
  map (λ s, PyFloat.to_str <$> PyFloat.of_str s)
      [ "5"; "5.0"; "5.5"; "1e16"; "1_000"; "-inf"; "NaN"; "0.1"; "1e-5";
        "ABC"; "1e"; "0x10"; "" ]
  = [ Some "5.0"; Some "5.0"; Some "5.5"; Some "1e+16"; Some "1000.0";
      Some "-inf"; Some "nan"; Some "0.1"; Some "1e-05";
      None; None; None; None ].
Proof. by vm_compute. Qed.

(** * Further properties of the two files *)

(** ** Strings *)

Section string_facts.

Lemma append_assoc (a b c : string) : (a +:+ b) +:+ c = a +:+ (b +:+ c).
Proof. induction a as [|x a IH]; [done|]. by rewrite !append_cons, IH. Qed.

Lemma append_nil_r (a : string) : a +:+ "" = a.
Proof. induction a as [|x a IH]; [done|]. by rewrite append_cons, IH. Qed.

Lemma length_append (a b : string) :
  String.length (a +:+ b) = String.length a + String.length b.
Proof. induction a as [|x a IH]; [done|]. rewrite append_cons. simpl. by rewrite IH. Qed.

Lemma append_nonempty_l (a b : string) : a ≠ "" → a +:+ b ≠ "".
Proof. by destruct a. Qed.

Lemma append_nonempty_r (a b : string) : b ≠ "" → a +:+ b ≠ "".
Proof.
  intros Hb H. apply (f_equal String.length) in H.
  rewrite length_append in H. destruct b; [done|]. simpl in H. lia.
Qed.

Lemma chars_append (a b : string) :
  list_ascii_of_string (a +:+ b)
  = list_ascii_of_string a ++ list_ascii_of_string b.
Proof. induction a as [|x a IH]; [done|]. rewrite append_cons. simpl. by rewrite IH. Qed.

Lemma join_app sep (l1 l2 : list string) :
  l1 ≠ [] → l2 ≠ [] →
  PyStr.join sep (l1 ++ l2) = PyStr.join sep l1 +:+ sep +:+ PyStr.join sep l2.
Proof.
  intros H1 H2. induction l1 as [|x l1 IH]; [done|].
  destruct l1 as [|y l1].
  - simpl. by destruct l2.
  - change (x +:+ sep +:+ PyStr.join sep ((y :: l1) ++ l2)
            = (x +:+ sep +:+ PyStr.join sep (y :: l1)) +:+ sep +:+ PyStr.join sep l2).
    rewrite IH by done. by rewrite !append_assoc.
Qed.

End string_facts.

(** ** More on [clean] and [join_labeled] *)

Section join_more.
Import PyStr Pandas Reads.

Lemma join_with_map keep render (t : string * option string → string * option string) fields :
  Spec.join_with keep render (map t fields)
  = Spec.join_with (λ f, keep (t f)) (λ f, render (t f)) fields.
Proof.
  unfold Spec.join_with.
  assert (List.filter keep (map t fields)
          = map t (List.filter (λ f, keep (t f)) fields)) as ->.
  { induction fields as [|f l IH]; [done|]. simpl.
    destruct (keep (t f)); simpl; by rewrite IH. }
  destruct (List.filter (λ f, keep (t f)) fields) as [|f l]; [done|].
  simpl. by rewrite map_map.
Qed.

Lemma join_with_app keep render a b :
  Spec.join_with keep render (a ++ b)
  = match Spec.join_with keep render a, Spec.join_with keep render b with
    | Some x, Some y => Some (x +:+ newline +:+ y)
    | Some x, None => Some x
    | None, r => r
    end.
Proof.
  unfold Spec.join_with. rewrite List.filter_app.
  destruct (List.filter keep a) as [|f l] eqn:Ha; [done|].
  destruct (List.filter keep b) as [|g k] eqn:Hb.
  { by rewrite app_nil_r. }
  transitivity (Some (join newline (map render ((f :: l) ++ g :: k)))); [done|].
  by rewrite map_app, join_app.
Qed.

Lemma present_trim f : Spec.present (trim_value f) = Spec.survives f.
Proof.
  destruct f as [label [v|]]; [|done].
  unfold Spec.present, Spec.survives, trim_value.
  change (truthy (Some (strip v)) = negb (String.eqb (strip v) "")).
  destruct (String.eqb_spec (strip v) "") as [Hv|Hv].
  - by apply truthy_Some_false.
  - by apply truthy_Some.
Qed.

Lemma line_trim f : Spec.line (trim_value f) = Spec.trimmed_line f.
Proof. by destruct f as [label [v|]]. Qed.

Lemma survives_trim f : Spec.survives (trim_value f) = Spec.survives f.
Proof.
  destruct f as [label [v|]]; [|done].
  unfold Spec.survives, trim_value.
  change (negb (String.eqb (strip (strip v)) "") = negb (String.eqb (strip v) "")).
  by rewrite strip_idemp.
Qed.

Lemma trimmed_line_trim f : Spec.trimmed_line (trim_value f) = Spec.trimmed_line f.
Proof.
  destruct f as [label [v|]]; [|done].
  unfold Spec.trimmed_line, trim_value.
  change (label +:+ ": " +:+ strip (strip v) = label +:+ ": " +:+ strip v).
  by rewrite strip_idemp.
Qed.

End join_more.

(** X1. Cleaning is idempotent: a value that [clean] returned, handed to
    [clean] again as a cell, comes back unchanged, in both files. *)
Theorem clean_idempotent (value : Pandas.cell) :
  Cli.clean (Reads.as_cell (Cli.clean value)) = Cli.clean value ∧
  Gui.clean (Reads.as_cell (Gui.clean value)) = Gui.clean value.
Proof.
  rewrite !Gui_clean_Cli. enough (Cli.clean (Reads.as_cell (Cli.clean value))
                                  = Cli.clean value) by done.
  rewrite !Cli_clean_spec.
  destruct (Spec.clean value) as [s|] eqn:H; [|done].
  apply clean_Some in H as (_ & _ & Hs & Hstrip).
  unfold Spec.clean. simpl. rewrite Hstrip. by rewrite decide_False.
Qed.

(** X2. On every list of pairs, [join_labeled] of build_fault_json.py is
    [join_labeled] of gui_fault_converter.py applied to the pairs with
    their values trimmed; and trimming the values beforehand does not
    change what the first one returns. *)
Theorem join_labeled_trim (fields : list (string * option string)) :
  Cli.join_labeled fields = Gui.join_labeled (map Reads.trim_value fields) ∧
  Cli.join_labeled (map Reads.trim_value fields) = Cli.join_labeled fields.
Proof.
  rewrite !Cli_join_labeled_spec, Gui_join_labeled_spec, !join_with_map.
  split; apply join_with_ext, Forall_forall; intros f _.
  - by rewrite present_trim, line_trim.
  - by rewrite survives_trim, trimmed_line_trim.
Qed.

(** X3. [join_labeled] of a list of pairs followed by another is the two
    results joined by a line feed, or the one that is not null when
    the other is, in both files. *)
Theorem join_labeled_app (a b : list (string * option string)) :
  Cli.join_labeled (a ++ b)
  = match Cli.join_labeled a, Cli.join_labeled b with
    | Some x, Some y => Some (x +:+ PyStr.newline +:+ y)
    | Some x, None => Some x
    | None, r => r
    end ∧
  Gui.join_labeled (a ++ b)
  = match Gui.join_labeled a, Gui.join_labeled b with
    | Some x, Some y => Some (x +:+ PyStr.newline +:+ y)
    | Some x, None => Some x
    | None, r => r
    end.
Proof.
  rewrite !Cli_join_labeled_spec, !Gui_join_labeled_spec.
  split; apply join_with_app.
Qed.

(** ** What a record depends on *)

Section record_inputs.
Import PyStr Pandas Dict.

Lemma Cli_terberg_record_unfold row :
  let spn := Cli.clean (get row "SPN") in
  let fmi := Cli.clean (get row "FMI") in
  let foutcode := Cli.clean (get row "Foutcode") in
  let description := Cli.clean (get row "Omschrijving") in
  let code_display :=
    if truthy spn && truthy fmi then
      Some ("SPN " +:+ fmt spn +:+ " FMI " +:+ fmt fmi)
    else if truthy spn then Some ("SPN " +:+ fmt spn)
    else None in
  Cli.terberg_record row
  = [ ("source", Str "terberg");
      ("alert_code", Null);
      ("spn", of_opt spn);
      ("fmi", of_opt fmi);
      ("code_display", of_opt (py_or code_display foutcode));
      ("title", of_opt (py_or foutcode code_display));
      ("description", of_opt description);
      ("severity", of_opt (Cli.clean (get row "Categorie")));
      ("category", of_opt (Cli.clean (get row "Foutcodelijst")));
      ("action", of_opt (Cli.clean (get row "Aangeraden actie")));
      ("cause", of_opt (Cli.clean (get row "Oorzaak")));
      ("effect", of_opt (Cli.clean (get row "Effect")));
      ("notes", Null);
      ("color", Null);
      ("stop_reason", Null);
      ("rationale", Null);
      ("search_terms",
       Strs (sorted (list_to_set (truthy_items [code_display; foutcode; description])))) ].
Proof. reflexivity. Qed.

Lemma Cli_venti_record_unfold row :
  let alert_code := Cli.normalize_alert_code (get row "Alert Fault code #") in
  let title := Cli.clean (get row "Alert message") in
  let description := Cli.clean (get row "Meaning") in
  let action :=
    Cli.join_labeled
      [ ("AVC Action", Cli.clean (get row "AVC Action"));
        ("Remote Operator Action", Cli.clean (get row " Remote Operator Action"));
        ("Vehicle immediate response", Cli.clean (get row "Vehicle immediate response"));
        ("Ops Troubleshoot Guide", Cli.clean (get row "Ops Troubleshoot Guide")) ] in
  let notes :=
    Cli.join_labeled
      [ ("Notes", Cli.clean (get row "Notes"));
        ("Internal Comments", Cli.clean (get row "Internal Comments")) ] in
  let cause := Cli.clean (get row "Associated Reasons") in
  let category := Cli.clean (get row "Categorization") in
  Cli.venti_record row
  = [ ("source", Str "venti");
      ("alert_code", of_opt alert_code);
      ("spn", Null);
      ("fmi", Null);
      ("code_display", of_opt alert_code);
      ("title", of_opt (py_or title alert_code));
      ("description", of_opt description);
      ("severity", of_opt (Cli.clean (get row "Severity")));
      ("category", of_opt category);
      ("action", of_opt action);
      ("cause", of_opt cause);
      ("effect", of_opt (Cli.clean (get row "Vehicle immediate response")));
      ("notes", of_opt notes);
      ("color", of_opt (Cli.clean (get row "Color")));
      ("stop_reason", of_opt (Cli.clean (get row "Stop Reason")));
      ("rationale", of_opt (Cli.clean (get row "Rationale")));
      ("search_terms",
       Strs (sorted (list_to_set
               (truthy_items [alert_code; title; description; cause; category])))) ].
Proof. reflexivity. Qed.

End record_inputs.

(** X4. A Terberg record depends on the row only through the cleaned
    cells under the nine labels the normalizer reads: two rows that agree
    there give the same record, in both files. So other columns are
    ignored, and a column that is absent counts as one whose cell is
    empty. *)
Theorem terberg_record_inputs (row1 row2 : Pandas.Series) :
  Forall (λ k, Cli.clean (Pandas.get row1 k) = Cli.clean (Pandas.get row2 k))
         Reads.terberg_inputs →
  Cli.terberg_record row1 = Cli.terberg_record row2 ∧
  Gui.terberg_record row1 = Gui.terberg_record row2.
Proof.
  intros H. rewrite !Gui_terberg_record_Cli.
  enough (Cli.terberg_record row1 = Cli.terberg_record row2) by done.
  unfold Reads.terberg_inputs in H.
  repeat (apply Forall_cons in H as [? H]).
  unfold Cli.terberg_record.
  repeat match goal with
         | E : Cli.clean _ = Cli.clean _ |- _ => rewrite E; clear E
         end.
  done.
Qed.

Lemma terberg_record_inputs_witness :
  Cli.terberg_record
    [("SPN", Pandas.CStr " 100 "); ("FMI", Examples.nan); ("Extra", Pandas.CStr "x")]
  = Cli.terberg_record [("SPN", Pandas.CInt 100)] ∧
  Gui.terberg_record
    [("SPN", Pandas.CStr " 100 "); ("FMI", Examples.nan); ("Extra", Pandas.CStr "x")]
  = Gui.terberg_record [("SPN", Pandas.CInt 100)].
Proof.
  apply (terberg_record_inputs
           [("SPN", Pandas.CStr " 100 "); ("FMI", Examples.nan); ("Extra", Pandas.CStr "x")]
           [("SPN", Pandas.CInt 100)]).
  repeat (constructor; [by vm_compute|]). constructor.
Defined.

(** X5. A Venti record depends on the row only through the cleaned cells
    under the fifteen labels the normalizer reads, among them the label
    " Remote Operator Action" with its leading blank: two rows that agree
    there give the same record, in both files. *)
Theorem venti_record_inputs (row1 row2 : Pandas.Series) :
  Forall (λ k, Cli.clean (Pandas.get row1 k) = Cli.clean (Pandas.get row2 k))
         Reads.venti_inputs →
  Cli.venti_record row1 = Cli.venti_record row2 ∧
  Gui.venti_record row1 = Gui.venti_record row2.
Proof.
  intros H. rewrite !Gui_venti_record_Cli.
  enough (Cli.venti_record row1 = Cli.venti_record row2) by done.
  unfold Reads.venti_inputs in H.
  repeat (apply Forall_cons in H as [? H]).
  unfold Cli.venti_record, Cli.normalize_alert_code.
  repeat match goal with
         | E : Cli.clean _ = Cli.clean _ |- _ => rewrite E; clear E
         end.
  done.
Qed.

Lemma venti_record_inputs_witness :
  Cli.venti_record
    [("Alert Fault code #", Pandas.CStr "7"); ("Remote Operator Action", Pandas.CStr "Call")]
  = Cli.venti_record [("Alert Fault code #", Pandas.CInt 7)] ∧
  Gui.venti_record
    [("Alert Fault code #", Pandas.CStr "7"); ("Remote Operator Action", Pandas.CStr "Call")]
  = Gui.venti_record [("Alert Fault code #", Pandas.CInt 7)].
Proof.
  apply (venti_record_inputs
           [("Alert Fault code #", Pandas.CStr "7");
            ("Remote Operator Action", Pandas.CStr "Call")]
           [("Alert Fault code #", Pandas.CInt 7)]).
  repeat (constructor; [by vm_compute|]). constructor.
Defined.

(** ** No empty strings in a record *)

Section no_empty_facts.
Import PyStr Pandas Dict.

Lemma pretty_N_go_length (x : N) (s : string) :
  (String.length s ≤ String.length (pretty_N_go x s))%nat.
Proof.
  revert s. induction (N.lt_wf_0 x) as [x _ IH]; intros s.
  assert (x = 0 ∨ 0 < x)%N as [->|Hx] by lia; [by rewrite pretty_N_go_0|].
  rewrite pretty_N_go_step by done.
  etrans; [|apply IH; by apply N.div_lt]. simpl. lia.
Qed.

Lemma pretty_N_nonempty (x : N) : pretty x ≠ "".
Proof.
  unfold pretty, pretty_N. case_decide as Hx; [done|].
  rewrite pretty_N_go_step by lia. intros H.
  pose proof (pretty_N_go_length (x `div` 10)
                (String (pretty_N_char (x `mod` 10)) "")) as Hl.
  rewrite H in Hl. simpl in Hl. lia.
Qed.

Lemma pretty_Z_nonempty (z : Z) : pretty z ≠ "".
Proof.
  destruct z as [|p|p]; [done| |done].
  apply (pretty_N_nonempty (Npos p)).
Qed.

Lemma layout_nonempty ds p : PyFloat.layout ds p ≠ "".
Proof.
  unfold PyFloat.layout.
  destruct (_ || _).
  - apply append_nonempty_r. by apply append_nonempty_l.
  - destruct (p <=? 0)%Z; [by apply append_nonempty_l|].
    destruct (_ <=? p)%Z.
    + apply append_nonempty_r. by apply append_nonempty_r.
    + apply append_nonempty_r. by apply append_nonempty_l.
Qed.

Lemma to_str_nonempty x : PyFloat.to_str x ≠ "".
Proof.
  destruct x as [|[]|neg m e]; [done..|]. unfold PyFloat.to_str.
  apply append_nonempty_r. destruct (m =? 0)%Z; [done|].
  destruct (PyFloat.scale _ _ _ _) as [n0 d0].
  destruct (PyFloat.shortest _ _ _ _ _) as [D0 j0].
  destruct (PyFloat.strip_zeros _ _ _) as [D j].
  apply layout_nonempty.
Qed.

Lemma no_empty_clean value : Reads.no_empty (of_opt (Cli.clean value)).
Proof.
  rewrite Cli_clean_spec. destruct (Spec.clean value) as [s|] eqn:H; [|done].
  by apply clean_Some in H as (_ & _ & ? & _).
Qed.

Lemma no_empty_py_or a b :
  Reads.no_empty (of_opt a) → Reads.no_empty (of_opt b) →
  Reads.no_empty (of_opt (py_or a b)).
Proof. unfold py_or. by destruct (truthy a). Qed.

Lemma no_empty_normalize_alert_code value :
  Reads.no_empty (of_opt (Cli.normalize_alert_code value)).
Proof.
  unfold Cli.normalize_alert_code.
  pose proof (no_empty_clean value) as Hc.
  destruct (Cli.clean value) as [raw|]; [|done].
  destruct (PyFloat.of_str raw) as [x|]; [|done].
  destruct (PyFloat.is_integer x); simpl.
  - apply pretty_Z_nonempty.
  - apply to_str_nonempty.
Qed.

Lemma join_nonempty sep p ps : p ≠ "" → join sep (p :: ps) ≠ "".
Proof. intros Hp. destruct ps; [done|]. by apply append_nonempty_l. Qed.

Lemma no_empty_join_labeled fields :
  Reads.no_empty (of_opt (Cli.join_labeled fields)).
Proof.
  rewrite Cli_join_labeled_spec. unfold Spec.join_with.
  destruct (List.filter Spec.survives fields) as [|f l]; [done|].
  simpl. apply join_nonempty. unfold Spec.trimmed_line.
  apply append_nonempty_r. by apply append_nonempty_l.
Qed.

Lemma elem_of_sorted x (terms : gset string) : x ∈ sorted terms ↔ x ∈ terms.
Proof. unfold sorted. by rewrite merge_sort_Permutation, elem_of_elements. Qed.

Lemma elem_of_sorted_items x candidates :
  x ∈ sorted (list_to_set (truthy_items candidates))
  ↔ x ≠ "" ∧ Some x ∈ candidates.
Proof.
  by rewrite elem_of_sorted, elem_of_list_to_set, elem_of_truthy_items.
Qed.

Lemma no_empty_terms candidates :
  Reads.no_empty (Strs (sorted (list_to_set (truthy_items candidates)))).
Proof. simpl. intros H. by apply elem_of_sorted_items in H as [? _]. Qed.

Lemma no_empty_code spn fmi :
  Reads.no_empty
    (of_opt (if truthy spn && truthy fmi
             then Some ("SPN " +:+ fmt spn +:+ " FMI " +:+ fmt fmi)
             else if truthy spn then Some ("SPN " +:+ fmt spn) else None)).
Proof. destruct (_ && _); [done|]. by destruct (truthy spn). Qed.

Lemma Cli_terberg_no_empty row :
  Forall (λ kv, Reads.no_empty kv.2) (Cli.terberg_record row).
Proof.
  rewrite Cli_terberg_record_unfold.
  repeat (constructor;
          [first [done | apply no_empty_clean | apply no_empty_terms
                 | apply no_empty_py_or;
                   first [apply no_empty_clean | apply no_empty_code]]|]).
  constructor.
Qed.

Lemma Cli_venti_no_empty row :
  Forall (λ kv, Reads.no_empty kv.2) (Cli.venti_record row).
Proof.
  rewrite Cli_venti_record_unfold.
  repeat (constructor;
          [first [done | apply no_empty_clean | apply no_empty_terms
                 | apply no_empty_normalize_alert_code
                 | apply no_empty_join_labeled
                 | apply no_empty_py_or;
                   first [apply no_empty_clean
                         | apply no_empty_normalize_alert_code]]|]).
  constructor.
Qed.

End no_empty_facts.

(** X6. No field of a record is an empty string: in a Terberg and in a
    Venti record, of either file, each field is null, a string that is not
    empty, or a list of strings that are not empty. In particular an alert
    code, an action and a notes field are never empty strings. *)
Theorem records_hold_no_empty_string (row : Pandas.Series) :
  Forall (λ kv, Reads.no_empty kv.2) (Cli.terberg_record row) ∧
  Forall (λ kv, Reads.no_empty kv.2) (Cli.venti_record row) ∧
  Forall (λ kv, Reads.no_empty kv.2) (Gui.terberg_record row) ∧
  Forall (λ kv, Reads.no_empty kv.2) (Gui.venti_record row).
Proof.
  rewrite Gui_terberg_record_Cli, Gui_venti_record_Cli.
  auto using Cli_terberg_no_empty, Cli_venti_no_empty.
Qed.

(** ** Code, title and action of a record *)

Section display_more.
Import PyStr Pandas Dict.

Lemma field_unfold (record : dict) key o :
  getitem record key = Some (of_opt o) → Spec.field record key = o.
Proof. unfold Spec.field. intros ->. by destruct o. Qed.

Lemma Cli_terberg_code_field row :
  Spec.field (Cli.terberg_record row) "code_display"
  = match Cli.clean (get row "SPN"), Cli.clean (get row "FMI") with
    | Some s, Some f => Some ("SPN " +:+ s +:+ " FMI " +:+ f)
    | Some s, None => Some ("SPN " +:+ s)
    | None, _ => Cli.clean (get row "Foutcode")
    end.
Proof.
  erewrite field_unfold; [|rewrite Cli_terberg_record_unfold; reflexivity].
  rewrite !Cli_clean_truthy.
  destruct (Cli.clean (get row "SPN")), (Cli.clean (get row "FMI")); done.
Qed.

Lemma Cli_terberg_title_field row :
  Spec.field (Cli.terberg_record row) "title"
  = match Cli.clean (get row "Foutcode") with
    | Some c => Some c
    | None => Spec.field (Cli.terberg_record row) "code_display"
    end.
Proof.
  rewrite Cli_terberg_code_field.
  erewrite field_unfold; [|rewrite Cli_terberg_record_unfold; reflexivity].
  rewrite py_or_clean.
  destruct (Cli.clean (get row "Foutcode")) as [c|]; [done|].
  rewrite !Cli_clean_truthy.
  destruct (Cli.clean (get row "SPN")), (Cli.clean (get row "FMI")); done.
Qed.

Lemma Cli_venti_title_field row :
  Spec.field (Cli.venti_record row) "title"
  = match Cli.clean (get row "Alert message") with
    | Some m => Some m
    | None => Cli.normalize_alert_code (get row "Alert Fault code #")
    end.
Proof.
  erewrite field_unfold; [|rewrite Cli_venti_record_unfold; reflexivity].
  apply py_or_clean.
Qed.

End display_more.

(** X7. In a Terberg record code_display is null exactly when title is,
    and that is exactly when the row has neither an SPN nor a Foutcode;
    the two fields differ only when the row has both an SPN and a
    Foutcode. An FMI alone never gives a code. *)
Theorem terberg_code_title_together (row : Pandas.Series) :
  let r := Cli.terberg_record row in
  let spn := Cli.clean (Pandas.get row "SPN") in
  let foutcode := Cli.clean (Pandas.get row "Foutcode") in
  (Spec.field r "code_display" = None ↔ Spec.field r "title" = None) ∧
  (Spec.field r "title" = None ↔ spn = None ∧ foutcode = None) ∧
  match spn, foutcode with
  | Some _, Some c =>
      Spec.field r "title" = Some c ∧
      Spec.field r "code_display" ≠ None
  | _, _ => Spec.field r "title" = Spec.field r "code_display"
  end.
Proof.
  intros r spn foutcode. subst r.
  rewrite Cli_terberg_title_field, Cli_terberg_code_field.
  fold spn foutcode.
  destruct spn as [s|], foutcode as [c|],
    (Cli.clean (Pandas.get row "FMI")) as [f|]; intuition congruence.
Qed.

Section venti_more.
Import PyStr Pandas Dict.

Lemma cleaned_survives_Some label v :
  Spec.cleaned (Some v) → Spec.survives (label, Some v) = true.
Proof.
  intros [Hv Hs]. unfold Spec.survives. simpl. rewrite Hs.
  by destruct (String.eqb_spec v "").
Qed.

Lemma join_labeled_None fields :
  Forall (λ f, Spec.cleaned f.2) fields →
  Cli.join_labeled fields = None ↔ Forall (λ f, f.2 = None) fields.
Proof.
  intros H. rewrite Cli_join_labeled_spec. unfold Spec.join_with.
  assert (List.filter Spec.survives fields = [] ↔ Forall (λ f, f.2 = None) fields)
    as <-.
  { induction H as [|[label [v|]] l Hf _ IH]; [done| |].
    - simpl. rewrite (cleaned_survives_Some label v Hf).
      split; [done|]. intros Hall. by apply Forall_cons in Hall as [? _].
    - simpl. rewrite IH. split; [by constructor|].
      intros Hall. by apply Forall_cons in Hall as [_ ?]. }
  by destruct (List.filter Spec.survives fields).
Qed.

Lemma join_labeled_line a label e b :
  Spec.cleaned (Some e) →
  ∃ before after,
    Cli.join_labeled (a ++ (label, Some e) :: b)
    = Some (join newline (before ++ (label +:+ ": " +:+ e) :: after)).
Proof.
  intros He. exists (map Spec.trimmed_line (List.filter Spec.survives a)),
                    (map Spec.trimmed_line (List.filter Spec.survives b)).
  rewrite Cli_join_labeled_spec. unfold Spec.join_with.
  rewrite List.filter_app. simpl List.filter at 2.
  rewrite (cleaned_survives_Some label e He).
  assert (Spec.trimmed_line (label, Some e) = label +:+ ": " +:+ e) as <-.
  { unfold Spec.trimmed_line. simpl. by destruct He as [_ ->]. }
  change (Spec.trimmed_line (label, Some e)
          :: map Spec.trimmed_line (List.filter Spec.survives b))
    with (map Spec.trimmed_line ((label, Some e) :: List.filter Spec.survives b)).
  rewrite <- map_app.
  by destruct (List.filter Spec.survives a).
Qed.

Lemma Cli_venti_fields row :
  let r := Cli.venti_record row in
  Spec.field r "code_display"
  = Cli.normalize_alert_code (get row "Alert Fault code #") ∧
  Spec.field r "alert_code"
  = Cli.normalize_alert_code (get row "Alert Fault code #") ∧
  Spec.field r "action"
  = Cli.join_labeled
      [ ("AVC Action", Cli.clean (get row "AVC Action"));
        ("Remote Operator Action", Cli.clean (get row " Remote Operator Action"));
        ("Vehicle immediate response", Cli.clean (get row "Vehicle immediate response"));
        ("Ops Troubleshoot Guide", Cli.clean (get row "Ops Troubleshoot Guide")) ] ∧
  Spec.field r "notes"
  = Cli.join_labeled
      [ ("Notes", Cli.clean (get row "Notes"));
        ("Internal Comments", Cli.clean (get row "Internal Comments")) ] ∧
  Spec.field r "effect" = Cli.clean (get row "Vehicle immediate response").
Proof.
  intros r. subst r.
  repeat split; apply field_unfold; rewrite Cli_venti_record_unfold; reflexivity.
Qed.

End venti_more.

(** X8. In a Venti record code_display is the alert code; title is null
    exactly when the row has neither an alert message nor an alert code;
    action is null exactly when the four cells it is made of are all
    empty, and notes exactly when its two cells are; and whenever effect
    is not null, action is not null either and has the line
    "Vehicle immediate response: " followed by the effect. *)
Theorem venti_title_action_effect (row : Pandas.Series) :
  let r := Cli.venti_record row in
  Spec.field r "code_display" = Spec.field r "alert_code" ∧
  (Spec.field r "title" = None
   ↔ Cli.clean (Pandas.get row "Alert message") = None ∧
     Spec.field r "alert_code" = None) ∧
  (Spec.field r "action" = None
   ↔ Forall (λ k, Cli.clean (Pandas.get row k) = None)
            [ "AVC Action"; " Remote Operator Action";
              "Vehicle immediate response"; "Ops Troubleshoot Guide" ]) ∧
  (Spec.field r "notes" = None
   ↔ Forall (λ k, Cli.clean (Pandas.get row k) = None)
            [ "Notes"; "Internal Comments" ]) ∧
  match Spec.field r "effect" with
  | Some e =>
      ∃ before after,
        Spec.field r "action"
        = Some (PyStr.join PyStr.newline
                  (before ++ ("Vehicle immediate response: " +:+ e) :: after))
  | None => True
  end.
Proof.
  intros r. subst r.
  rewrite Cli_venti_title_field.
  destruct (Cli_venti_fields row) as (-> & -> & -> & -> & ->).
  split; [done|]. split.
  { destruct (Cli.clean (Pandas.get row "Alert message")); intuition congruence. }
  split.
  { rewrite join_labeled_None
      by (repeat constructor; apply Cli_clean_cleaned).
    rewrite !Forall_cons, !Forall_nil. done. }
  split.
  { rewrite join_labeled_None
      by (repeat constructor; apply Cli_clean_cleaned).
    rewrite !Forall_cons, !Forall_nil. done. }
  pose proof (Cli_clean_cleaned (Pandas.get row "Vehicle immediate response")) as He.
  destruct (Cli.clean (Pandas.get row "Vehicle immediate response")) as [e|]; [|done].
  apply (join_labeled_line
           [ ("AVC Action", Cli.clean (Pandas.get row "AVC Action"));
             ("Remote Operator Action",
              Cli.clean (Pandas.get row " Remote Operator Action")) ]
           "Vehicle immediate response" e
           [ ("Ops Troubleshoot Guide",
              Cli.clean (Pandas.get row "Ops Troubleshoot Guide")) ] He).
Qed.

(** ** Search terms and the fields they come from *)

Section terms_more.
Import PyStr Pandas Dict.

Lemma length_remove_dups_le (l : list string) :
  (length (remove_dups l) ≤ length l)%nat.
Proof.
  induction l as [|x l IH]; [done|]. simpl.
  destruct (decide_rel elem_of x l); simpl; lia.
Qed.

Lemma length_truthy_items candidates :
  (length (truthy_items candidates) ≤ length candidates)%nat.
Proof.
  induction candidates as [|t l IH]; [done|].
  assert (truthy_items (t :: l)
          = (if truthy t then option_list t else []) ++ truthy_items l) as ->.
  { unfold truthy_items. simpl. by destruct (truthy t), t. }
  rewrite length_app. destruct (truthy t), t; simpl; lia.
Qed.

Lemma length_sorted_items candidates :
  (length (sorted (list_to_set (truthy_items candidates))) ≤ length candidates)%nat.
Proof.
  rewrite (sorted_list_to_set _ (truthy_items candidates)) by done.
  rewrite merge_sort_Permutation.
  etrans; [apply length_remove_dups_le|apply length_truthy_items].
Qed.

Lemma Cli_terberg_terms row :
  Reads.terms (Cli.terberg_record row)
  = sorted (list_to_set (truthy_items
      [ (if truthy (Cli.clean (get row "SPN")) && truthy (Cli.clean (get row "FMI"))
         then Some ("SPN " +:+ fmt (Cli.clean (get row "SPN")) +:+ " FMI "
                    +:+ fmt (Cli.clean (get row "FMI")))
         else if truthy (Cli.clean (get row "SPN"))
              then Some ("SPN " +:+ fmt (Cli.clean (get row "SPN")))
              else None);
        Cli.clean (get row "Foutcode");
        Cli.clean (get row "Omschrijving") ])).
Proof. reflexivity. Qed.

Lemma Cli_venti_terms row :
  Reads.terms (Cli.venti_record row)
  = sorted (list_to_set (truthy_items
      [ Cli.normalize_alert_code (get row "Alert Fault code #");
        Cli.clean (get row "Alert message");
        Cli.clean (get row "Meaning");
        Cli.clean (get row "Associated Reasons");
        Cli.clean (get row "Categorization") ])).
Proof. reflexivity. Qed.

Lemma Cli_terberg_description_field row :
  Spec.field (Cli.terberg_record row) "description"
  = Cli.clean (get row "Omschrijving").
Proof. apply field_unfold. rewrite Cli_terberg_record_unfold. reflexivity. Qed.

Lemma Cli_venti_plain_fields row :
  let r := Cli.venti_record row in
  Spec.field r "description" = Cli.clean (get row "Meaning") ∧
  Spec.field r "cause" = Cli.clean (get row "Associated Reasons") ∧
  Spec.field r "category" = Cli.clean (get row "Categorization").
Proof.
  intros r. subst r.
  repeat split; apply field_unfold; rewrite Cli_venti_record_unfold; reflexivity.
Qed.

Lemma Some_nonempty (o : option string) x :
  Reads.no_empty (of_opt o) → Some x = o → x ≠ "".
Proof. by intros H <-. Qed.

End terms_more.

(** X9. The search terms of a Terberg record are exactly the values of
    its code_display, title and description that are not null, so there
    are at most three; those of a Venti record are exactly the values of
    its alert_code, title, description, cause and category that are not
    null, so there are at most five. *)
Theorem search_terms_are_fields (row : Pandas.Series) :
  let t := Cli.terberg_record row in
  let v := Cli.venti_record row in
  (∀ x, x ∈ Reads.terms t
        ↔ Some x ∈ map (Spec.field t) ["code_display"; "title"; "description"]) ∧
  (length (Reads.terms t) ≤ 3)%nat ∧
  (∀ x, x ∈ Reads.terms v
        ↔ Some x ∈ map (Spec.field v)
                       ["alert_code"; "title"; "description"; "cause"; "category"]) ∧
  (length (Reads.terms v) ≤ 5)%nat.
Proof.
  intros t v. subst t v. split; [|split; [|split]].
  - intros x. rewrite Cli_terberg_terms, elem_of_sorted_items. simpl map.
    rewrite Cli_terberg_title_field, Cli_terberg_code_field,
      Cli_terberg_description_field, !Cli_clean_truthy.
    pose proof (Some_nonempty (Cli.clean (Pandas.get row "Foutcode")) x
                  (no_empty_clean _)) as Hf.
    pose proof (Some_nonempty (Cli.clean (Pandas.get row "Omschrijving")) x
                  (no_empty_clean _)) as Hd.
    rewrite !elem_of_cons, !elem_of_nil.
    destruct (Cli.clean (Pandas.get row "SPN")) as [s|],
      (Cli.clean (Pandas.get row "FMI")) as [f|],
      (Cli.clean (Pandas.get row "Foutcode")) as [c|]; simpl;
      (split; [intuition congruence|]);
      (intros H; split; [|intuition congruence]);
      (destruct H as [H|[H|[H|[]]]]; auto; injection H as ->; done).
  - rewrite Cli_terberg_terms. apply length_sorted_items.
  - intros x. rewrite Cli_venti_terms, elem_of_sorted_items. simpl map.
    rewrite Cli_venti_title_field.
    destruct (Cli_venti_fields row) as (_ & -> & _).
    destruct (Cli_venti_plain_fields row) as (-> & -> & ->).
    pose proof (Some_nonempty _ x (no_empty_normalize_alert_code
                  (Pandas.get row "Alert Fault code #"))) as Ha.
    pose proof (Some_nonempty (Cli.clean (Pandas.get row "Alert message")) x
                  (no_empty_clean _)) as Hm.
    pose proof (Some_nonempty (Cli.clean (Pandas.get row "Meaning")) x
                  (no_empty_clean _)) as Hd.
    pose proof (Some_nonempty (Cli.clean (Pandas.get row "Associated Reasons")) x
                  (no_empty_clean _)) as Hc.
    pose proof (Some_nonempty (Cli.clean (Pandas.get row "Categorization")) x
                  (no_empty_clean _)) as Hg.
    rewrite !elem_of_cons, !elem_of_nil.
    destruct (Cli.clean (Pandas.get row "Alert message")) as [m|];
      intuition congruence.
  - rewrite Cli_venti_terms. apply length_sorted_items.
Qed.

(** ** The desktop conversion *)

(** X10. When [normalize_dataframe] returns records, there is one per row
    of the table, in the order of the rows: the record at a position is
    the record of the row at that position, a Terberg record when the
    table passes the Terberg test and a Venti record otherwise. *)
Theorem normalize_dataframe_rows (df : Pandas.DataFrame) (data : list Dict.dict) :
  Gui.normalize_dataframe df = Ok data →
  length data = Pandas.len df ∧
  ∀ i row, Pandas.iterrows df !! i = Some row →
           data !! i = Some (if Gui.is_terberg df then Gui.terberg_record row
                             else Gui.venti_record row).
Proof.
  unfold Gui.normalize_dataframe.
  destruct (Gui.is_terberg df); [|destruct (Gui.is_venti df); [|done]];
    intros [= <-].
  - split; [apply normalize_length|]. intros i row Hrow.
    rewrite Gui_normalize_terberg_eq, list_lookup_fmap, Hrow.
    simpl. by rewrite Gui_terberg_record_Cli.
  - split; [apply normalize_length|]. intros i row Hrow.
    rewrite Gui_normalize_venti_eq, list_lookup_fmap, Hrow.
    simpl. by rewrite Gui_venti_record_Cli.
Qed.

Lemma normalize_dataframe_rows_witness :
  length (Gui.normalize_terberg Examples.mixed_table)
  = Pandas.len Examples.mixed_table ∧
  ∀ i row, Pandas.iterrows Examples.mixed_table !! i = Some row →
           Gui.normalize_terberg Examples.mixed_table !! i
           = Some (if Gui.is_terberg Examples.mixed_table
                   then Gui.terberg_record row else Gui.venti_record row).
Proof.
  apply (normalize_dataframe_rows Examples.mixed_table). reflexivity.
Defined.

(** X11. [convert] shows the success dialog only after the table was
    recognized and the output file written without error: then it made
    exactly one write, of one record per row of the loaded table to the
    path with the suffix ".json", and the message gives that row count. *)
Theorem convert_success
    (with_suffix : string → string → string) (name : string → string)
    (write_text : string → list Dict.dict → result unit)
    (self : Gui.App) (title message : string) :
  Gui.ShowInfo title message ∈ Gui.convert with_suffix name write_text self →
  ∃ table path data,
    Gui.df self = Some table ∧ Gui.current_path self = Some path ∧
    Gui.normalize_dataframe table = Ok data ∧
    length data = Pandas.len table ∧
    write_text (with_suffix path ".json") data = Ok () ∧
    Gui.convert with_suffix name write_text self
    = [ Gui.WriteText (with_suffix path ".json") data;
        Gui.ShowInfo "Success"
          ("Wrote " +:+ pretty (Pandas.len table) +:+ " records to "
           +:+ name (with_suffix path ".json")) ].
Proof.
  unfold Gui.convert.
  destruct (Gui.df self) as [table|]; [|by intros ?%elem_of_nil].
  destruct (Gui.current_path self) as [path|]; [|by intros ?%elem_of_nil].
  destruct (Gui.normalize_dataframe table) as [data|e] eqn:Hn.
  - pose proof (normalize_dataframe_rows table data Hn) as [Hlen _].
    destruct (write_text (with_suffix path ".json") data) as [[]|e] eqn:Hw.
    + intros _. exists table, path, data. by rewrite Hlen.
    + intros H. apply elem_of_cons in H as [?|H]; [done|].
      apply elem_of_cons in H as [?|H]; [done|]. by apply elem_of_nil in H.
  - intros H. apply elem_of_cons in H as [?|H]; [done|]. by apply elem_of_nil in H.
Qed.

Lemma convert_success_witness :
  ∃ table path data,
    Gui.df {| Gui.df := Some Examples.venti_table; Gui.current_path := Some "venti.csv" |}
    = Some table ∧
    Gui.current_path
      {| Gui.df := Some Examples.venti_table; Gui.current_path := Some "venti.csv" |}
    = Some path ∧
    Gui.normalize_dataframe table = Ok data ∧
    length data = Pandas.len table ∧
    (λ _ _, Ok ()) (path +:+ ".json") data = Ok () ∧
    Gui.convert (λ p suffix, p +:+ suffix) id (λ _ _, Ok ())
      {| Gui.df := Some Examples.venti_table; Gui.current_path := Some "venti.csv" |}
    = [ Gui.WriteText (path +:+ ".json") data;
        Gui.ShowInfo "Success"
          ("Wrote " +:+ pretty (Pandas.len table) +:+ " records to "
           +:+ id (path +:+ ".json")) ].
Proof.
  apply (convert_success (λ p suffix, p +:+ suffix) id (λ _ _, Ok ())
           {| Gui.df := Some Examples.venti_table; Gui.current_path := Some "venti.csv" |}
           "Success" "Wrote 1 records to venti.csv.json").
  apply list_elem_of_further, list_elem_of_here.
Defined.

(** ** The window *)

Section window_facts.
Import Pandas Window.

Lemma get_zip_other (labels : list string) (cells : list cell) label value key :
  label ≠ key → get ((label, value) :: zip labels cells) key = get (zip labels cells) key.
Proof. intros H. simpl. by rewrite decide_False. Qed.

Lemma get_zip (labels : list string) (cells : list cell) :
  NoDup labels → length cells = length labels →
  map (get (zip labels cells)) labels = cells.
Proof.
  intros Hnd. revert cells.
  induction Hnd as [|label labels Hnotin Hnd IH]; intros [|value cells] Hlen;
    try done.
  simpl in Hlen. injection Hlen as Hlen.
  change (zip (label :: labels) (value :: cells))
    with ((label, value) :: zip labels cells).
  rewrite map_cons. f_equal.
  - simpl. by rewrite decide_True.
  - rewrite <- (IH cells Hlen) at 2. apply map_ext_in.
    intros key Hkey. apply get_zip_other. intros ->.
    apply Hnotin. by apply list_elem_of_In.
Qed.

Lemma populate_table_items df self :
  tree_items (populate_table df self)
  = map (λ cells, map (get (zip (columns df) cells)) (columns df))
        (take 200 (values df)).
Proof.
  unfold populate_table. simpl. rewrite foldl_snoc_map. simpl.
  unfold iterrows, head. simpl. by rewrite map_map.
Qed.

Lemma populate_table_length df self :
  length (tree_items (populate_table df self)) = min 200 (len df).
Proof. rewrite populate_table_items, length_map. apply length_take. Qed.

End window_facts.

(** X12. [populate_table] shows the columns of the table and the first
    200 rows, or all of them when there are fewer, each with the cells
    that [row.get] finds under the column labels; it changes nothing else
    of the window: the table and path held, the info label, the state of
    the convert button and the summary stay as they were. For a table
    with distinct labels and as many cells in each row as labels, the rows
    shown are exactly the first 200 rows of the table, cell by cell. *)
Theorem table_preview (df : Pandas.DataFrame) (self : Window.state) :
  Window.tree_columns (Window.populate_table df self) = Pandas.columns df ∧
  Window.tree_items (Window.populate_table df self)
  = map (λ row, map (Pandas.get row) (Pandas.columns df))
        (take 200 (Pandas.iterrows df)) ∧
  length (Window.tree_items (Window.populate_table df self))
  = min 200 (Pandas.len df) ∧
  Window.app (Window.populate_table df self) = Window.app self ∧
  Window.info_label (Window.populate_table df self) = Window.info_label self ∧
  Window.convert_enabled (Window.populate_table df self)
  = Window.convert_enabled self ∧
  Window.summary (Window.populate_table df self) = Window.summary self ∧
  (Window.well_formed df →
   Window.tree_items (Window.populate_table df self)
   = take 200 (Pandas.values df)).
Proof.
  split; [done|]. split.
  { rewrite populate_table_items. unfold Pandas.iterrows.
    change (map (zip (Pandas.columns df)) (Pandas.values df))
      with (zip (Pandas.columns df) <$> Pandas.values df).
    rewrite <- fmap_take. by rewrite <- list_fmap_compose. }
  split; [apply populate_table_length|]. do 4 (split; [done|]).
  intros [Hnd Hlen]. rewrite populate_table_items.
  rewrite <- (map_id (take 200 (Pandas.values df))) at 2.
  apply map_ext_in. intros cells Hin. apply get_zip; [done|].
  apply list_elem_of_In, elem_of_take in Hin as (i & Hi & _).
  by eapply Forall_lookup_1 in Hlen.
Qed.

Lemma table_preview_witness :
  Window.tree_items (Window.populate_table Examples.terberg_table Window.init)
  = take 200 (Pandas.values Examples.terberg_table).
Proof.
  apply (table_preview Examples.terberg_table Window.init).
  split.
  - apply (bool_decide_unpack _). by vm_compute.
  - repeat constructor.
Defined.

(** X13. [load_file] is all or nothing. Either it leaves the window
    exactly as it was, silently when the dialog was cancelled and with one
    error dialog when the file could not be read; or it loaded the table
    of the chosen file, read with the default encoding, or with latin1
    when and only when the first read raised a decoding error. In that
    case it shows no dialog, holds the table and the path, enables the
    convert button, and shows the columns and at most 200 rows. *)
Theorem load_file_all_or_nothing
    (chosen : string) (read_csv : string → option string → Window.outcome)
    (name : string → string) (summary_text : Pandas.DataFrame → string)
    (self : Window.state) :
  let after := (Window.load_file chosen read_csv name summary_text self).1 in
  let shown := (Window.load_file chosen read_csv name summary_text self).2 in
  (after = self ∧
   (chosen = "" ∧ shown = []
    ∨ chosen ≠ "" ∧
      ∃ msg, shown = [Gui.ShowError "Error" ("Failed to read CSV: " +:+ msg)]))
  ∨ (∃ df,
       chosen ≠ "" ∧ shown = [] ∧
       (read_csv chosen None = Window.Loaded df
        ∨ (∃ msg, read_csv chosen None = Window.DecodeError msg) ∧
          read_csv chosen (Some "latin1") = Window.Loaded df) ∧
       Window.app after
       = {| Gui.df := Some df; Gui.current_path := Some chosen |} ∧
       Window.convert_enabled after = true ∧
       Window.tree_columns after = Pandas.columns df ∧
       length (Window.tree_items after) = min 200 (Pandas.len df) ∧
       Window.summary after = summary_text df ∧
       Window.info_label after
       = "Loaded: " +:+ name chosen +:+ " | rows: " +:+ pretty (Pandas.len df)
         +:+ " | cols: " +:+ pretty (length (Pandas.columns df))).
Proof.
  intros after shown. subst after shown. unfold Window.load_file.
  destruct (decide (chosen = "")) as [->|Hc]; [left; auto|].
  destruct (read_csv chosen None) as [df|m|m] eqn:H1.
  - right. exists df.
    do 3 (split; [by auto|]). do 3 (split; [reflexivity|]).
    split; [apply (populate_table_length df)|]. by split.
  - destruct (read_csv chosen (Some "latin1")) as [df|m'|m'] eqn:H2.
    + right. exists df.
      do 2 (split; [by auto|]). split; [by eauto|].
      do 3 (split; [reflexivity|]).
      split; [apply (populate_table_length df)|]. by split.
    + left. eauto.
    + left. eauto.
  - left. eauto.
Qed.

(** X14. In every state the window can reach, either nothing was ever
    loaded and the window is in its initial state, with the convert button
    disabled; or a table and its path are both held, the button is
    enabled, the view shows the columns of that table and at most 200
    rows, and [convert] then always ends with a dialog. A failed or
    cancelled load never leaves the window half updated. *)
Theorem window_invariant (w : Window.state) :
  Window.reachable w →
  match Gui.df (Window.app w) with
  | None => w = Window.init
  | Some df =>
      ∃ path, path ≠ "" ∧
        Gui.current_path (Window.app w) = Some path ∧
        Window.convert_enabled w = true ∧
        Window.tree_columns w = Pandas.columns df ∧
        length (Window.tree_items w) = min 200 (Pandas.len df) ∧
        ∀ with_suffix name write_text,
          ∃ title message,
            last (Gui.convert with_suffix name write_text (Window.app w))
            = Some (Gui.ShowError title message)
            ∨ last (Gui.convert with_suffix name write_text (Window.app w))
              = Some (Gui.ShowInfo title message)
  end.
Proof.
  induction 1 as [|self chosen read_csv name summary_text Hr IH]; [done|].
  pose proof (load_file_all_or_nothing chosen read_csv name summary_text self) as H.
  cbv zeta in H.
  destruct H as [[-> _]|(df & Hc & _ & _ & Happ & Hen & Hcols & Hlen & _)]; [done|].
  rewrite Happ. cbn [Gui.df Gui.current_path]. exists chosen.
  do 5 (split; [done|]).
  intros with_suffix name' write_text. unfold Gui.convert. simpl.
  destruct (Gui.normalize_dataframe df) as [data|e]; [|eauto].
  destruct (write_text _ _); eauto.
Qed.

Lemma window_invariant_witness :
  match Gui.df (Window.app
          (Window.load_file "terberg.csv" (λ _ _, Window.Loaded Examples.terberg_table)
             id (λ _, "") Window.init).1) with
  | None =>
      (Window.load_file "terberg.csv" (λ _ _, Window.Loaded Examples.terberg_table)
         id (λ _, "") Window.init).1 = Window.init
  | Some df =>
      ∃ path, path ≠ "" ∧
        Gui.current_path (Window.app
          (Window.load_file "terberg.csv" (λ _ _, Window.Loaded Examples.terberg_table)
             id (λ _, "") Window.init).1) = Some path ∧
        Window.convert_enabled
          (Window.load_file "terberg.csv" (λ _ _, Window.Loaded Examples.terberg_table)
             id (λ _, "") Window.init).1 = true ∧
        Window.tree_columns
          (Window.load_file "terberg.csv" (λ _ _, Window.Loaded Examples.terberg_table)
             id (λ _, "") Window.init).1 = Pandas.columns df ∧
        length (Window.tree_items
          (Window.load_file "terberg.csv" (λ _ _, Window.Loaded Examples.terberg_table)
             id (λ _, "") Window.init).1) = min 200 (Pandas.len df) ∧
        ∀ with_suffix name write_text,
          ∃ title message,
            last (Gui.convert with_suffix name write_text (Window.app
              (Window.load_file "terberg.csv"
                 (λ _ _, Window.Loaded Examples.terberg_table)
                 id (λ _, "") Window.init).1))
            = Some (Gui.ShowError title message)
            ∨ last (Gui.convert with_suffix name write_text (Window.app
              (Window.load_file "terberg.csv"
                 (λ _ _, Window.Loaded Examples.terberg_table)
                 id (λ _, "") Window.init).1))
              = Some (Gui.ShowInfo title message)
  end.
Proof.
  apply (window_invariant
           (Window.load_file "terberg.csv" (λ _ _, Window.Loaded Examples.terberg_table)
              id (λ _, "") Window.init).1).
  apply Window.reach_load, Window.reach_init.
Defined.

(** ** The batch entry point *)

Section json_facts.
Import Dict.

Local Abbreviation plain_text s :=
  (Forall (λ c, Json.plain c = true) (list_ascii_of_string s)).

Lemma plain_append a b : plain_text a → plain_text b → plain_text (a +:+ b).
Proof. intros Ha Hb. rewrite chars_append. by apply Forall_app. Qed.

Lemma plain_escape_check c :
  forallb Json.plain (list_ascii_of_string (Json.escape c)) = true.
Proof. destruct c as [[] [] [] [] [] [] [] []]; vm_compute; reflexivity. Qed.

Lemma plain_escape c : plain_text (Json.escape c).
Proof.
  apply Forall_forall. intros x Hx. apply list_elem_of_In in Hx.
  by apply (proj1 (forallb_forall _ _) (plain_escape_check c)).
Qed.

Lemma plain_escape_all s : plain_text (Json.escape_all s).
Proof.
  induction s as [|c s IH]; [constructor|].
  simpl. apply plain_append; [apply plain_escape|done].
Qed.

Lemma plain_encode_str s : plain_text (Json.encode_str s).
Proof.
  unfold Json.encode_str. simpl. constructor; [done|].
  apply plain_append; [apply plain_escape_all|by repeat constructor].
Qed.

Lemma plain_newline_indent level : plain_text (Json.newline_indent level).
Proof.
  unfold Json.newline_indent. apply plain_append; [by repeat constructor|].
  rewrite list_ascii_of_string_of_list_ascii. by apply Forall_replicate.
Qed.

Lemma plain_join sep items :
  plain_text sep → Forall (λ s, plain_text s) items →
  plain_text (PyStr.join sep items).
Proof.
  intros Hsep. induction 1 as [|p ps Hp Hps IH]; [constructor|].
  destruct ps as [|q ps]; [done|].
  change (plain_text (p +:+ sep +:+ PyStr.join sep (q :: ps))).
  auto using plain_append.
Qed.

Lemma plain_block opening closing level items :
  plain_text opening → plain_text closing →
  Forall (λ s, plain_text s) items →
  plain_text (Json.block opening closing level items).
Proof.
  intros Ho Hc Hi. unfold Json.block.
  destruct items as [|p ps]; [by apply plain_append|].
  apply plain_append; [done|].
  apply plain_append; [apply plain_newline_indent|].
  apply plain_append; [|by apply plain_append; [apply plain_newline_indent|]].
  apply plain_join; [|done].
  apply plain_append; [by repeat constructor|apply plain_newline_indent].
Qed.

Lemma plain_dumps_value level v : plain_text (Json.dumps_value level v).
Proof.
  destruct v as [|s|l]; simpl.
  - by repeat constructor.
  - apply plain_encode_str.
  - apply plain_block; [by repeat constructor..|].
    apply Forall_map_all. apply plain_encode_str.
Qed.

Lemma plain_dumps_record level d : plain_text (Json.dumps_record level d).
Proof.
  unfold Json.dumps_record.
  apply plain_block; [by repeat constructor..|].
  apply Forall_map_all. intros kv.
  apply plain_append; [apply plain_encode_str|].
  apply plain_append; [by repeat constructor|apply plain_dumps_value].
Qed.

Lemma plain_dumps data : plain_text (Json.dumps data).
Proof.
  unfold Json.dumps. apply plain_block; [by repeat constructor..|].
  apply Forall_map_all. apply plain_dumps_record.
Qed.

End json_facts.

(** X15. [main] writes only when both tables were read: when reading
    the Terberg file raises, or else reading the Venti file does, it ends
    with that exception and has written and printed nothing. Otherwise it
    makes one write to the output path, of a text in which every character
    is a printable ASCII character or a line feed, whatever the cells of
    the tables hold, and then prints the sum of the two row counts. *)
Theorem main_effects
    (read_csv : string → option string → result Pandas.DataFrame)
    (write_text : string → string → result unit)
    (path_str : string → string) (a : Batch.args) :
  match read_csv (Batch.terberg a) None with
  | Raise e => Batch.main read_csv write_text path_str a = ([], Some e)
  | Ok tdf =>
      match read_csv (Batch.venti a) (Some "latin1") with
      | Raise e => Batch.main read_csv write_text path_str a = ([], Some e)
      | Ok vdf =>
          ∃ text,
            Forall (λ c, Json.plain c = true) (list_ascii_of_string text) ∧
            match write_text (Batch.output a) text with
            | Ok _ =>
                Batch.main read_csv write_text path_str a
                = ([ Batch.WriteText (Batch.output a) text;
                     Batch.Print
                       ("Wrote " +:+ pretty (Pandas.len tdf + Pandas.len vdf)
                        +:+ " records to " +:+ path_str (Batch.output a)) ],
                   None)
            | Raise e =>
                Batch.main read_csv write_text path_str a
                = ([ Batch.WriteText (Batch.output a) text ], Some e)
            end
      end
  end.
Proof.
  unfold Batch.main. rewrite Cli_build_dataset_eq.
  destruct (read_csv (Batch.terberg a) None) as [tdf|e]; [|done].
  destruct (read_csv (Batch.venti a) (Some "latin1")) as [vdf|e]; [|done].
  exists (Json.dumps (map Cli.terberg_record (Pandas.iterrows tdf)
                      ++ map Cli.venti_record (Pandas.iterrows vdf))).
  split; [apply plain_dumps|].
  destruct (write_text _ _); [|done].
  by rewrite length_app, !length_map, !iterrows_length.
Qed.

(** ** Integer alert codes *)

Section parse_facts.
Import PyStr.

Lemma digit_harmless c : PyFloat.is_digit c = true → Reads.harmless c = true.
Proof. destruct c as [[] [] [] [] [] [] [] []]; vm_compute; congruence. Qed.

Lemma sign_digit c r :
  PyFloat.is_digit c = true → PyFloat.sign (String c r) = (false, String c r).
Proof. destruct c as [[] [] [] [] [] [] [] []]; vm_compute; congruence. Qed.

Lemma pretty_N_char_digit d :
  (d < 10)%N → PyFloat.digit (pretty_N_char d) = Some (Z.of_N d).
Proof.
  intros Hd.
  assert (d = 0 ∨ d = 1 ∨ d = 2 ∨ d = 3 ∨ d = 4 ∨ d = 5 ∨ d = 6 ∨ d = 7
          ∨ d = 8 ∨ d = 9)%N as H by lia.
  repeat (destruct H as [->|H]; [reflexivity|]). by subst.
Qed.

Lemma pretty_N_char_is_digit d : (d < 10)%N → PyFloat.is_digit (pretty_N_char d) = true.
Proof.
  intros Hd. unfold PyFloat.is_digit. rewrite pretty_N_char_digit by done.
  reflexivity.
Qed.

Lemma pretty_N_go_app x a b : pretty_N_go x (a +:+ b) = pretty_N_go x a +:+ b.
Proof.
  revert a. induction (N.lt_wf_0 x) as [x _ IH]; intros a.
  assert (x = 0 ∨ 0 < x)%N as [->|Hx] by lia; [by rewrite !pretty_N_go_0|].
  rewrite (pretty_N_go_step x (a +:+ b)), (pretty_N_go_step x a) by done.
  apply (IH (x `div` 10)%N ltac:(by apply N.div_lt)
            (String (pretty_N_char (x `mod` 10)) a)).
Qed.

Lemma pretty_N_go_digits x :
  ∀ acc cnt s,
    ∃ k, (0 ≤ k)%Z ∧ ((0 < x)%N → (0 < k)%Z) ∧
         PyFloat.digits acc cnt (pretty_N_go x s)
         = PyFloat.digits (acc * 10 ^ k + Z.of_N x)%Z (cnt + k)%Z s.
Proof.
  induction (N.lt_wf_0 x) as [x _ IH]; intros acc cnt s.
  assert (x = 0 ∨ 0 < x)%N as [->|Hx] by lia.
  { exists 0%Z. rewrite pretty_N_go_0. split; [done|]. split; [lia|].
    f_equal; [f_equal|]; lia. }
  rewrite pretty_N_go_step by done.
  destruct (IH (x `div` 10)%N ltac:(by apply N.div_lt) acc cnt
              (String (pretty_N_char (x `mod` 10)) s)) as (k & Hk & _ & ->).
  exists (k + 1)%Z. split; [lia|]. split; [lia|].
  simpl. rewrite pretty_N_char_digit by (apply N.mod_lt; lia).
  f_equal; [|lia].
  rewrite Z.pow_add_r, Z.pow_1_r by lia.
  pose proof (N.div_mod x 10 ltac:(lia)) as E.
  apply (f_equal Z.of_N) in E. rewrite N2Z.inj_add, N2Z.inj_mul in E.
  change (Z.of_N 10) with 10%Z in E. lia.
Qed.

Lemma pretty_N_go_chars P x s :
  (∀ d, (d < 10)%N → P (pretty_N_char d)) →
  Forall P (list_ascii_of_string s) →
  Forall P (list_ascii_of_string (pretty_N_go x s)).
Proof.
  intros HP. revert s. induction (N.lt_wf_0 x) as [x _ IH]; intros s Hs.
  assert (x = 0 ∨ 0 < x)%N as [->|Hx] by lia; [by rewrite pretty_N_go_0|].
  rewrite pretty_N_go_step by done. apply IH; [by apply N.div_lt|].
  simpl. constructor; [|done]. apply HP, N.mod_lt. lia.
Qed.

Lemma harmless_inv c :
  Reads.harmless c = true →
  is_space c = false ∧ PyFloat.c_isspace c = false ∧
  Ascii.eqb c "_" = false ∧ (N_of_ascii c <? 128)%N = true.
Proof.
  unfold Reads.harmless. rewrite !andb_true_iff, !negb_true_iff. tauto.
Qed.

Lemma rstrip_harmless s :
  Forall (λ c, Reads.harmless c = true) (list_ascii_of_string s) → rstrip s = s.
Proof.
  induction s as [|c s IH]; [done|]. simpl. intros H.
  apply Forall_cons in H as [Hc Hs]. rewrite (IH Hs).
  apply harmless_inv in Hc as (-> & _). by destruct s.
Qed.

Lemma strip_harmless s :
  Forall (λ c, Reads.harmless c = true) (list_ascii_of_string s) → strip s = s.
Proof.
  intros H. unfold strip.
  assert (lstrip s = s) as ->; [|by apply rstrip_harmless].
  destruct s as [|c s]; [done|]. simpl.
  apply Forall_cons in H as [Hc _]. by apply harmless_inv in Hc as (-> & _).
Qed.

Lemma c_rstrip_harmless s :
  Forall (λ c, Reads.harmless c = true) (list_ascii_of_string s) →
  PyFloat.c_rstrip s = s.
Proof.
  induction s as [|c s IH]; [done|]. simpl. intros H.
  apply Forall_cons in H as [Hc Hs]. rewrite (IH Hs).
  apply harmless_inv in Hc as (_ & -> & _). by destruct s.
Qed.

Lemma c_strip_harmless s :
  s ≠ "" → Forall (λ c, Reads.harmless c = true) (list_ascii_of_string s) →
  PyFloat.c_strip s = Some s.
Proof.
  intros Hne H. destruct s as [|c s]; [done|]. unfold PyFloat.c_strip.
  simpl in H. apply Forall_cons in H as [Hc Hs].
  simpl. apply harmless_inv in Hc as (_ & -> & _).
  by rewrite c_rstrip_harmless.
Qed.

Lemma is_ascii_harmless s :
  Forall (λ c, Reads.harmless c = true) (list_ascii_of_string s) →
  PyFloat.is_ascii s = true.
Proof.
  induction s as [|c s IH]; [done|]. simpl. intros H.
  apply Forall_cons in H as [Hc Hs]. rewrite (IH Hs).
  by apply harmless_inv in Hc as (_ & _ & _ & ->).
Qed.

Lemma has_underscore_harmless s :
  Forall (λ c, Reads.harmless c = true) (list_ascii_of_string s) →
  PyFloat.has_underscore s = false.
Proof.
  intros H. unfold PyFloat.has_underscore. apply bool_decide_eq_false.
  intros Hin. eapply Forall_forall in H; [|done]. by vm_compute in H.
Qed.

Lemma of_str_harmless s :
  s ≠ "" → Forall (λ c, Reads.harmless c = true) (list_ascii_of_string s) →
  PyFloat.of_str s
  = match (match PyFloat.strtod s with
           | Some p => Some p
           | None => PyFloat.parse_inf_or_nan s
           end) with
    | Some (x, rest) => if decide (rest = "") then Some x else None
    | None => None
    end.
Proof.
  intros Hne H. unfold PyFloat.of_str, PyFloat.to_ascii.
  rewrite is_ascii_harmless, has_underscore_harmless by done. simpl.
  rewrite c_strip_harmless by done. simpl.
  destruct (PyFloat.strtod s) as [[x rest]|]; [done|].
  by destruct (PyFloat.parse_inf_or_nan s) as [[x rest]|].
Qed.

End parse_facts.

Section round_facts.
Local Open Scope Z_scope.

Lemma scale_exact D d e :
  0 < d → e ≤ 0 →
  ∃ n1 d1, PyFloat.scale 2 (D * d) d e = (n1, d1) ∧
           0 < d1 ∧ n1 / d1 = D * 2 ^ (- e) ∧ n1 mod d1 = 0.
Proof.
  intros Hd He. unfold PyFloat.scale.
  destruct (Z.leb_spec 0 e) as [H0|H0].
  - assert (e = 0) as -> by lia. simpl.
    exists (D * d), (d * 1). rewrite !Z.mul_1_r.
    split; [done|]. split; [done|].
    split; [by apply Z.div_mul; lia|by apply Z.mod_mul; lia].
  - exists (D * d * 2 ^ (- e)), d. split; [done|]. split; [done|].
    replace (D * d * 2 ^ (- e)) with (D * 2 ^ (- e) * d) by lia.
    split; [by apply Z.div_mul; lia|by apply Z.mod_mul; lia].
Qed.

Lemma log2_product D d :
  0 < D → 0 < d →
  Z.log2 (D * d) - Z.log2 d = Z.log2 D ∨
  Z.log2 (D * d) - Z.log2 d = Z.log2 D + 1.
Proof.
  intros HD Hd.
  pose proof (Z.log2_mul_below D d HD Hd).
  pose proof (Z.log2_mul_above D d ltac:(lia) ltac:(lia)).
  lia.
Qed.

Lemma round_ratio_exact neg D d :
  0 < d → 0 < D < 2 ^ 53 →
  PyFloat.round_ratio neg (D * d) d
  = PyFloat.Fin neg (D * 2 ^ (52 - Z.log2 D)) (Z.log2 D - 52).
Proof.
  intros Hd HD. unfold PyFloat.round_ratio.
  assert ((D * d =? 0) = false) as -> by (apply Z.eqb_neq; nia).
  pose proof (Z.log2_spec D ltac:(lia)) as [HL1 HL2].
  pose proof (Z.log2_nonneg D) as HL0.
  assert (Z.log2 D < 53) as HL by (apply Z.log2_lt_pow2; lia).
  set (L := Z.log2 D) in *.
  assert (2 ^ 53 = 2 ^ L * 2 ^ (53 - L)) as E53
    by (rewrite <- Z.pow_add_r by lia; f_equal; lia).
  assert (2 ^ 53 = 2 ^ (L + 1) * 2 ^ (52 - L)) as E53'
    by (rewrite <- Z.pow_add_r by lia; f_equal; lia).
  assert (0 < 2 ^ (53 - L)) by (apply Z.pow_pos_nonneg; lia).
  assert (0 < 2 ^ (52 - L)) by (apply Z.pow_pos_nonneg; lia).
  assert (let '(n0, d0) :=
            PyFloat.scale 2 (D * d) d (Z.log2 (D * d) - Z.log2 d - 53) in
          (if 2 ^ 53 <=? n0 / d0
           then Z.log2 (D * d) - Z.log2 d - 53 + 1
           else Z.log2 (D * d) - Z.log2 d - 53) = L - 52) as He.
  { destruct (log2_product D d ltac:(lia) Hd) as [E|E]; fold L in E.
    - replace (Z.log2 (D * d) - Z.log2 d - 53) with (L - 53) by lia.
      destruct (scale_exact D d (L - 53) Hd ltac:(lia))
        as (n0 & d0 & -> & _ & -> & _).
      replace (- (L - 53)) with (53 - L) by lia.
      destruct (Z.leb_spec (2 ^ 53) (D * 2 ^ (53 - L))); [lia|nia].
    - replace (Z.log2 (D * d) - Z.log2 d - 53) with (L - 52) by lia.
      destruct (scale_exact D d (L - 52) Hd ltac:(lia))
        as (n0 & d0 & -> & _ & -> & _).
      replace (- (L - 52)) with (52 - L) by lia.
      destruct (Z.leb_spec (2 ^ 53) (D * 2 ^ (52 - L))); [nia|lia]. }
  destruct (PyFloat.scale 2 (D * d) d (Z.log2 (D * d) - Z.log2 d - 53))
    as [n0 d0].
  rewrite He. unfold PyFloat.emin. rewrite Z.max_r by lia.
  destruct (scale_exact D d (L - 52) Hd ltac:(lia))
    as (n1 & d1 & -> & Hd1 & -> & ->).
  replace (- (L - 52)) with (52 - L) by lia.
  assert (((d1 <? 2 * 0) || (d1 =? 2 * 0) && Z.odd (D * 2 ^ (52 - L))) = false)
    as ->.
  { destruct (Z.ltb_spec d1 (2 * 0)), (Z.eqb_spec d1 (2 * 0)); simpl; lia. }
  assert ((D * 2 ^ (52 - L) =? 2 ^ 53) = false) as -> by (apply Z.eqb_neq; nia).
  unfold PyFloat.emax.
  by assert ((971 <? L - 52) = false) as -> by (apply Z.ltb_ge; lia).
Qed.

End round_facts.

Section numeral_facts.
Import PyStr Pandas.
Local Open Scope Z_scope.

Lemma round_ratio_int neg X d :
  0 < d → 0 ≤ X < 2 ^ 53 →
  PyFloat.is_integer (PyFloat.round_ratio neg (X * d) d) = true ∧
  PyFloat.to_int (PyFloat.round_ratio neg (X * d) d) = (if neg then - X else X).
Proof.
  intros Hd HX. assert (X = 0 ∨ 0 < X) as [->|Hpos] by lia.
  - unfold PyFloat.round_ratio. rewrite Z.mul_0_l. simpl (0 =? 0).
    cbv iota. unfold PyFloat.is_integer, PyFloat.to_int, PyFloat.emin.
    rewrite Z.mod_0_l by (apply Z.pow_nonzero; lia).
    rewrite Z.div_0_l by (apply Z.pow_nonzero; lia).
    split; [done|]. by destruct neg.
  - rewrite round_ratio_exact by lia.
    pose proof (Z.log2_nonneg X) as HL0.
    assert (Z.log2 X < 53) as HL by (apply Z.log2_lt_pow2; lia).
    set (L := Z.log2 X) in *.
    assert (0 < 2 ^ (52 - L)) by (apply Z.pow_pos_nonneg; lia).
    unfold PyFloat.is_integer, PyFloat.to_int.
    replace (- (L - 52)) with (52 - L) by lia.
    rewrite Z.mod_mul, Z.div_mul by lia.
    split; [by rewrite orb_true_r|].
    destruct (Z.leb_spec 0 (L - 52)); [|done].
    replace (L - 52) with 0 by lia. replace (52 - L) with 0 by lia.
    by rewrite !Z.pow_0_r, !Z.mul_1_r.
Qed.

Lemma pretty_N_digits (x : N) :
  Forall (λ c, PyFloat.is_digit c = true) (list_ascii_of_string (pretty x)).
Proof.
  unfold pretty, pretty_N. case_decide; [by repeat constructor|].
  apply pretty_N_go_chars; [apply pretty_N_char_is_digit|constructor].
Qed.

Lemma digits_pretty (x : N) s :
  ∃ k, 0 < k ∧ PyFloat.digits 0 0 (pretty x +:+ s) = PyFloat.digits (Z.of_N x) k s.
Proof.
  unfold pretty, pretty_N. case_decide as Hx.
  - subst x. by exists 1.
  - rewrite <- pretty_N_go_app. change ("" +:+ s) with s.
    destruct (pretty_N_go_digits x 0 0 s) as (k & _ & Hk & ->).
    exists k. split; [apply Hk; lia|]. by rewrite Z.mul_0_l.
Qed.

Lemma sign_numeral (neg : bool) (x : N) frac :
  PyFloat.sign ((if neg then "-" else "") +:+ pretty x +:+ frac)
  = (neg, pretty x +:+ frac).
Proof.
  destruct neg; [done|].
  pose proof (pretty_N_digits x) as Hd. pose proof (pretty_N_nonempty x) as Hne.
  change ("" +:+ pretty x +:+ frac) with (pretty x +:+ frac).
  destruct (pretty x) as [|c r]; [done|].
  apply Forall_cons in Hd as [Hc _]. rewrite append_cons.
  by apply sign_digit.
Qed.

Lemma of_decimal_0 neg D : PyFloat.of_decimal neg D 0 = PyFloat.round_ratio neg D 1.
Proof. reflexivity. Qed.

Lemma of_decimal_tenth neg D :
  PyFloat.of_decimal neg D (-1) = PyFloat.round_ratio neg D 10.
Proof. reflexivity. Qed.

Lemma strtod_numeral (neg : bool) (x : N) :
  PyFloat.strtod ((if neg then "-" else "") +:+ pretty x +:+ "")
  = Some (PyFloat.round_ratio neg (Z.of_N x * 1) 1, "") ∧
  PyFloat.strtod ((if neg then "-" else "") +:+ pretty x +:+ ".0")
  = Some (PyFloat.round_ratio neg (Z.of_N x * 10) 10, "").
Proof.
  unfold PyFloat.strtod. rewrite !sign_numeral. split.
  - destruct (digits_pretty x "") as (k & Hk & ->).
    change (PyFloat.digits (Z.of_N x) k "") with (Z.of_N x, k, "").
    cbv beta iota zeta.
    assert ((k + 0 =? 0) = false) as -> by (apply Z.eqb_neq; lia).
    change (PyFloat.exponent "") with (0, ""). cbv beta iota zeta.
    change (0 - 0) with 0. by rewrite of_decimal_0, Z.mul_1_r.
  - destruct (digits_pretty x ".0") as (k & Hk & ->).
    change (PyFloat.digits (Z.of_N x) k ".0") with (Z.of_N x, k, ".0").
    cbv beta iota zeta.
    change (PyFloat.digits (Z.of_N x) 0 "0") with (10 * Z.of_N x + 0, 0 + 1, "").
    cbv beta iota zeta.
    assert ((k + (0 + 1) =? 0) = false) as -> by (apply Z.eqb_neq; lia).
    change (PyFloat.exponent "") with (0, ""). cbv beta iota zeta.
    change (0 - (0 + 1)) with (-1). rewrite of_decimal_tenth.
    by replace (10 * Z.of_N x + 0) with (Z.of_N x * 10) by lia.
Qed.

Lemma numeral_harmless (neg : bool) (x : N) frac :
  Forall (λ c, Reads.harmless c = true) (list_ascii_of_string frac) →
  Forall (λ c, Reads.harmless c = true)
         (list_ascii_of_string ((if neg then "-" else "") +:+ pretty x +:+ frac)).
Proof.
  intros Hf. rewrite !chars_append. apply Forall_app. split.
  { destruct neg; by repeat constructor. }
  apply Forall_app. split; [|done].
  eapply Forall_impl; [apply pretty_N_digits|]. apply digit_harmless.
Qed.

Lemma numeral_nonempty (neg : bool) (x : N) frac :
  (if neg then "-" else "") +:+ pretty x +:+ frac ≠ "".
Proof.
  apply append_nonempty_r, append_nonempty_l, pretty_N_nonempty.
Qed.

Lemma clean_harmless s :
  s ≠ "" → Forall (λ c, Reads.harmless c = true) (list_ascii_of_string s) →
  Cli.clean (CStr s) = Some s.
Proof.
  intros Hne H. unfold Cli.clean. simpl. rewrite strip_harmless by done.
  rewrite or_none_spec. by rewrite decide_False.
Qed.

Lemma normalize_numeral (neg : bool) (x : N) frac :
  Z.of_N x < 2 ^ 53 → frac = "" ∨ frac = ".0" →
  Cli.normalize_alert_code
    (CStr ((if neg then "-" else "") +:+ pretty x +:+ frac))
  = Some (pretty (if neg then - Z.of_N x else Z.of_N x)).
Proof.
  intros Hx Hfrac.
  assert (Forall (λ c, Reads.harmless c = true) (list_ascii_of_string frac)) as Hf
    by (destruct Hfrac as [->| ->]; by repeat constructor).
  pose proof (numeral_harmless neg x frac Hf) as Hh.
  pose proof (numeral_nonempty neg x frac) as Hne.
  unfold Cli.normalize_alert_code. rewrite clean_harmless by done.
  rewrite of_str_harmless by done.
  destruct (strtod_numeral neg x) as [E1 E2].
  destruct Hfrac as [->| ->]; [rewrite E1|rewrite E2];
    rewrite decide_True by done.
  - destruct (round_ratio_int neg (Z.of_N x) 1 ltac:(lia) ltac:(lia)) as [-> ->].
    done.
  - destruct (round_ratio_int neg (Z.of_N x) 10 ltac:(lia) ltac:(lia)) as [-> ->].
    done.
Qed.

Lemma pretty_Z_numeral (n : Z) :
  pretty n = (if n <? 0 then "-" else "") +:+ pretty (Z.to_N (Z.abs n)) +:+ "".
Proof. rewrite append_nil_r. by destruct n. Qed.

End numeral_facts.

(** X16. An integer alert code of absolute value below 2^53 comes out of
    [normalize_alert_code] as its own decimal string, whether the cell
    holds the integer, its decimal string, or that string followed by
    ".0" as a spreadsheet exports it; in both files. *)
Theorem integer_codes_survive (n : Z) :
  (Z.abs n < 2 ^ 53)%Z →
  Forall (λ value,
            Cli.normalize_alert_code value = Some (pretty n) ∧
            Gui.normalize_alert_code value = Some (pretty n))
         [ Pandas.CInt n; Pandas.CStr (pretty n); Pandas.CStr (pretty n +:+ ".0") ].
Proof.
  intros Hn.
  assert ((if (n <? 0)%Z then (- Z.of_N (Z.to_N (Z.abs n)))%Z
           else Z.of_N (Z.to_N (Z.abs n))) = n) as En.
  { rewrite Z2N.id by lia. destruct (Z.ltb_spec n 0); lia. }
  assert (Cli.normalize_alert_code (Pandas.CStr (pretty n)) = Some (pretty n)) as E1.
  { rewrite (pretty_Z_numeral n) at 1.
    rewrite normalize_numeral; [by rewrite En| |by left].
    rewrite Z2N.id; lia. }
  assert (Cli.normalize_alert_code (Pandas.CStr (pretty n +:+ ".0"))
          = Some (pretty n)) as E2.
  { rewrite (pretty_Z_numeral n) at 1. rewrite append_nil_r, append_assoc.
    rewrite normalize_numeral; [by rewrite En| |by right].
    rewrite Z2N.id; lia. }
  assert (Cli.normalize_alert_code (Pandas.CInt n) = Some (pretty n)) as E0.
  { rewrite <- E1 at 1. unfold Cli.normalize_alert_code, Cli.clean. done. }
  rewrite !Forall_cons, Forall_nil, !Gui_normalize_alert_code_Cli. auto.
Qed.

Lemma integer_codes_survive_witness :
  Forall (λ value,
            Cli.normalize_alert_code value = Some (pretty 12%Z) ∧
            Gui.normalize_alert_code value = Some (pretty 12%Z))
         [ Pandas.CInt 12; Pandas.CStr (pretty 12%Z);
           Pandas.CStr (pretty 12%Z +:+ ".0") ].
Proof. apply (integer_codes_survive 12). reflexivity. Defined.

(** Beyond that bound the code can change: float() rounds 2^53 + 1 to
    2^53. *)
Example integer_code_beyond_bound :
  Cli.normalize_alert_code (Pandas.CStr "9007199254740993")
  = Some "9007199254740992".
Proof. by vm_compute. Qed.

(** ** Detection and extra columns *)

(** X17. Schema detection looks at the set of column labels only, and
    more columns never hurt: when every label of a table is also a label
    of a second table, a first table that is recognized makes the second
    recognized too, and a first table that passes the Terberg test makes
    the second a Terberg table. *)
Theorem detection_with_more_columns (df df' : Pandas.DataFrame) :
  (∀ c, c ∈ Pandas.columns df → c ∈ Pandas.columns df') →
  (Gui.is_terberg df = true →
   Gui.normalize_dataframe df' = Ok (Gui.normalize_terberg df')) ∧
  (∀ data, Gui.normalize_dataframe df = Ok data →
           ∃ data', Gui.normalize_dataframe df' = Ok data').
Proof.
  intros Hsub.
  assert (Gui.is_terberg df = true → Gui.is_terberg df' = true) as Ht.
  { rewrite !is_terberg_labels. intros H. eapply Forall_impl; [done|].
    intros c. apply Hsub. }
  assert (Gui.is_venti df = true → Gui.is_venti df' = true) as Hv.
  { rewrite !is_venti_label. apply Hsub. }
  split.
  - intros H. unfold Gui.normalize_dataframe. by rewrite (Ht H).
  - intros data. unfold Gui.normalize_dataframe.
    destruct (Gui.is_terberg df) eqn:E1.
    + rewrite (Ht eq_refl). eauto.
    + destruct (Gui.is_venti df) eqn:E2; [|done].
      rewrite (Hv eq_refl). destruct (Gui.is_terberg df'); eauto.
Qed.

Lemma detection_with_more_columns_witness :
  (Gui.is_terberg Examples.terberg_table = true →
   Gui.normalize_dataframe
     {| Pandas.columns := "Extra" :: Pandas.columns Examples.terberg_table;
        Pandas.values := [] |}
   = Ok (Gui.normalize_terberg
           {| Pandas.columns := "Extra" :: Pandas.columns Examples.terberg_table;
              Pandas.values := [] |})) ∧
  (∀ data, Gui.normalize_dataframe Examples.terberg_table = Ok data →
           ∃ data',
             Gui.normalize_dataframe
               {| Pandas.columns := "Extra" :: Pandas.columns Examples.terberg_table;
                  Pandas.values := [] |} = Ok data').
Proof.
  apply (detection_with_more_columns Examples.terberg_table
           {| Pandas.columns := "Extra" :: Pandas.columns Examples.terberg_table;
              Pandas.values := [] |}).
  intros c Hc. simpl. by apply list_elem_of_further.
Defined.
